(** * AFRIMET stations dashboard: the data-derivation layer

    A shallow embedding of the pure computations of [src/App.jsx] (module
    [App]) and of the single-search variant of the same component (module
    [Part000]): the status classifier [isActive], the collection
    filter [filtered], the KPI [counts], the yearly
    [stationActivitySeries], the selectable [years], the rows of the table
    and, in module [Page], the state of the component and the handlers
    that change it.

    The JavaScript fragment the code relies on is modelled in module [Js]:
    - values are the JSON scalars plus [undefined]; numbers are integers
      ([Z]) and the result of a numeric conversion is [option Z], [None]
      standing for NaN;
    - strings are sequences of code units in the range U+0000..U+00FF
      ([string]); [trim], [toLowerCase] and [includes] are the built-ins
      restricted to that range;
    - a method call on a value that has no such method raises [TypeError],
      modelled by the [completion] type. *)

From Stdlib Require Import ZArith List Bool Lia Ascii String Sorted.
From Equations Require Import Equations.
Import ListNotations.

Open Scope Z_scope.

(** ** The JavaScript fragment *)

Module Js.

Inductive value : Type :=
| Undefined
| Null
| Boolean (b : bool)
| Number (n : Z)
| Str (s : string).

(** [typeof v] *)
Definition typeof (v : value) : string :=
  match v with
  | Undefined => "undefined"
  | Null => "object"
  | Boolean _ => "boolean"
  | Number _ => "number"
  | Str _ => "string"
  end.

(** ToBoolean *)
Definition truthy (v : value) : bool :=
  match v with
  | Undefined | Null => false
  | Boolean b => b
  | Number n => negb (n =? 0)
  | Str s => negb (s =? "")%string
  end.

(** [a ?? b] *)
Definition coalesce (a b : value) : value :=
  match a with
  | Undefined | Null => b
  | _ => a
  end.

(** [a || b] on values *)
Definition or (a b : value) : value :=
  if truthy a then a else b.

(** *** Strings *)

(** WhiteSpace and LineTerminator code units below U+0100:
    TAB, LF, VT, FF, CR, SP and NBSP. *)
Definition is_white (c : ascii) : bool :=
  let n := N_of_ascii c in
  ((9 <=? n) && (n <=? 13) || (n =? 32) || (n =? 160))%N.

Fixpoint trimStart (s : string) : string :=
  match s with
  | EmptyString => EmptyString
  | String c s' => if is_white c then trimStart s' else s
  end.

Fixpoint trimEnd (s : string) : string :=
  match s with
  | EmptyString => EmptyString
  | String c s' =>
      match trimEnd s' with
      | EmptyString => if is_white c then EmptyString else String c EmptyString
      | t => String c t
      end
  end.

(** [s.trim()] *)
Definition trim (s : string) : string := trimEnd (trimStart s).

(** Lower-case mapping of one code unit: A-Z, and the Latin-1 capitals
    U+00C0..U+00DE except the multiplication sign U+00D7. *)
Definition lower_unit (c : ascii) : ascii :=
  let n := N_of_ascii c in
  if ((65 <=? n) && (n <=? 90) ||
      (192 <=? n) && (n <=? 222) && negb (n =? 215))%N
  then ascii_of_N (n + 32)
  else c.

(** [s.toLowerCase()] *)
Fixpoint toLowerCase (s : string) : string :=
  match s with
  | EmptyString => EmptyString
  | String c s' => String (lower_unit c) (toLowerCase s')
  end.

(** [s.includes(sub)] *)
Fixpoint includes (s sub : string) : bool :=
  String.prefix sub s ||
  match s with
  | EmptyString => false
  | String _ s' => includes s' sub
  end.

(** *** Numeric conversion and comparison *)

Definition digit (c : ascii) : option Z :=
  let n := N_of_ascii c in
  if ((48 <=? n) && (n <=? 57))%N then Some (Z.of_N n - 48) else None.

Fixpoint digits (acc : Z) (s : string) : option Z :=
  match s with
  | EmptyString => Some acc
  | String c s' =>
      match digit c with
      | Some d => digits (10 * acc + d) s'
      | None => None
      end
  end.

Definition unsigned_literal (s : string) : option Z :=
  match s with
  | EmptyString => None
  | _ => digits 0 s
  end.

(** StringToNumber on the signed decimal integer literals: surrounding
    white space is dropped, the empty literal is 0, anything that is not a
    literal is NaN.  Literals with a fraction, an exponent or a radix prefix
    denote numbers this model does not cover. *)
Definition StringToNumber (s : string) : option Z :=
  match trim s with
  | EmptyString => Some 0
  | String "+" t => unsigned_literal t
  | String "-" t => option_map Z.opp (unsigned_literal t)
  | t => unsigned_literal t
  end.

(** ToNumber; [None] is NaN. *)
Definition ToNumber (v : value) : option Z :=
  match v with
  | Undefined => None
  | Null => Some 0
  | Boolean b => Some (if b then 1 else 0)
  | Number n => Some n
  | Str s => StringToNumber s
  end.

(** [a <= b]: two strings compare by code units, anything else
    numerically, and a comparison with NaN is false. *)
Definition le (a b : value) : bool :=
  match a, b with
  | Str s, Str t => String.leb s t
  | _, _ =>
      match ToNumber a, ToNumber b with
      | Some x, Some y => x <=? y
      | _, _ => false
      end
  end.

(** *** Abrupt completion *)

Inductive error : Type := TypeError.

Inductive completion (A : Type) : Type :=
| Normal (a : A)
| Throw (e : error).
Arguments Normal {A} a.
Arguments Throw {A} e.

Definition bind {A B} (c : completion A) (k : A -> completion B)
  : completion B :=
  match c with
  | Normal a => k a
  | Throw e => Throw e
  end.

(** [v.toLowerCase()]: only strings have the method. *)
Definition call_toLowerCase (v : value) : completion string :=
  match v with
  | Str s => Normal (toLowerCase s)
  | _ => Throw TypeError
  end.

(** [xs.filter(p)]: the callback runs on every element in order and the
    first exception it raises ends the call. *)
Fixpoint Array_filter {A} (p : A -> completion bool) (xs : list A)
  : completion (list A) :=
  match xs with
  | [] => Normal []
  | x :: xs' =>
      bind (p x) (fun keep =>
      bind (Array_filter p xs') (fun rest =>
      Normal (if keep then x :: rest else rest)))
  end.

(** [xs.length] *)
Definition Array_length {A} (xs : list A) : Z := Z.of_nat (List.length xs).

(** [xs.slice(from, to)] for indices inside the non-negative range. *)
Definition Array_slice {A} (from to : nat) (xs : list A) : list A :=
  skipn from (firstn to xs).

(** The number a value is when [typeof v === "number"] holds. *)
Definition number_of (v : value) : option Z :=
  if (typeof v =? "number")%string then ToNumber v else None.

(** A [Set] of numbers, in insertion order; [ys.add(v)] *)
Definition Set_add (ys : list Z) (v : Z) : list Z :=
  if existsb (Z.eqb v) ys then ys else ys ++ [v].

(** [xs.sort(cmp)] on numbers, for a comparator that orders them
    consistently: the elements in the comparator's order, those it holds
    equal in their original order. *)
Fixpoint sort_insert (cmp : Z -> Z -> Z) (a : Z) (sorted : list Z) : list Z :=
  match sorted with
  | [] => [a]
  | b :: rest =>
      if cmp a b <=? 0 then a :: sorted else b :: sort_insert cmp a rest
  end.

Definition Array_sort (cmp : Z -> Z -> Z) (xs : list Z) : list Z :=
  fold_right (sort_insert cmp) [] xs.

End Js.

Notation "x <- c ;; k" := (Js.bind c (fun x => k))
  (at level 61, c at next level, right associativity).

(** ** Data model *)

(** A station record of the feed.  A field that the record does not carry
    reads as [Js.Undefined]. *)
Record Station : Type := mkStation {
  station_id : Js.value;
  name : Js.value;
  country : Js.value;
  begin_year : Js.value;
  end_year : Js.value
}.

(** KPI counts. *)
Record Counts : Type := mkCounts {
  active : Z;
  inactive : Z;
  total : Z
}.

(** One point of the activity series. *)
Record SeriesEntry : Type := mkEntry {
  year : Z;
  entry_active : Z;
  entry_inactive : Z;
  entry_total : Z
}.

(** The [data] state: the parsed feed, or the object [{ error: ... }] that
    a failed fetch stores.  [feed_stations] is [None] when the object has
    no [stations]. *)
Record Feed : Type := mkFeed {
  feed_error : Js.value;
  feed_generated_at : Js.value;
  feed_default_year : Js.value;
  feed_stations : option (list Station)
}.

(** What a table row shows for a station. *)
Record Row : Type := mkRow {
  row_key : Js.value;
  cell_station : Js.value;
  cell_name : Js.value;
  cell_country : Js.value;
  cell_begin : Js.value;
  cell_end : Js.value;
  cell_status : string
}.

(** ** [src/App.jsx] *)

Module App.

(** [isActive(st, year)] *)
Definition isActive (st : Station) (year : Js.value) : bool :=
  let by_ := if (Js.typeof (begin_year st) =? "number")%string
             then begin_year st else Js.Number (-9999) in
  let ey := if (Js.typeof (end_year st) =? "number")%string
            then end_year st else Js.Number 9999 in
  Js.le by_ year && Js.le year ey.

(** [activeCountForYear(stations, year)]: the body of the [for ... of]
    loop as a step on the counter. *)
Definition activeCount_step (year : Js.value) (active : Z) (s : Station) : Z :=
  let by_ := if (Js.typeof (begin_year s) =? "number")%string
             then begin_year s else Js.Number (-9999) in
  let ey := if (Js.typeof (end_year s) =? "number")%string
            then end_year s else Js.Number 9999 in
  if Js.le by_ year && Js.le year ey then active + 1 else active.

Definition activeCountForYear (stations : list Station) (year : Js.value) : Z :=
  fold_left (activeCount_step year) stations 0.

(** The callback of [stations.filter] in [filtered]: the three fields are
    lower-cased first, then [searchBy] picks the comparison. *)
Definition filtered_callback (searchBy qq : string) (s : Station)
  : Js.completion bool :=
  station <- Js.call_toLowerCase (Js.or (station_id s) (Js.Str "")) ;;
  name <- Js.call_toLowerCase (Js.or (name s) (Js.Str "")) ;;
  country <- Js.call_toLowerCase (Js.or (country s) (Js.Str "")) ;;
  if (searchBy =? "station")%string then Js.Normal (Js.includes station qq)
  else if (searchBy =? "name")%string then Js.Normal (Js.includes name qq)
  else if (searchBy =? "country")%string then Js.Normal (Js.includes country qq)
  else Js.Normal (Js.includes station qq || Js.includes name qq
                  || Js.includes country qq).

(** [filtered], as a function of the state it is memoised on. *)
Definition filtered (stations : list Station) (q searchBy : string)
  : Js.completion (list Station) :=
  let qq := Js.toLowerCase (Js.trim q) in
  if negb (Js.truthy (Js.Str qq)) then Js.Normal stations
  else Js.Array_filter (filtered_callback searchBy qq) stations.

(** [counts] *)
Definition counts (filtered : list Station) (year : Js.value) : Counts :=
  if negb (Js.truthy (Js.Number (Js.Array_length filtered)))
     || negb (Js.truthy year)
  then mkCounts 0 0 (Js.Array_length filtered)
  else
    let a := fold_left (fun a s => if isActive s year then a + 1 else a)
                       filtered 0 in
    mkCounts a (Js.Array_length filtered - a) (Js.Array_length filtered).

(** The number of iterations the series loop still has to run from [y]. *)
Definition years_left (endYear : Js.value) (y : Z) : nat :=
  match Js.ToNumber endYear with
  | Some e => Z.to_nat (e + 1 - y)
  | None => O
  end.

(** [for (let y = startYear; y <= endYear; y++) series.push({...})] *)
Equations? series_loop (stations : list Station) (total : Z)
  (endYear : Js.value) (y : Z) (series : list SeriesEntry)
  : list SeriesEntry by wf (years_left endYear y) lt :=
  series_loop stations total endYear y series
    with Sumbool.sumbool_of_bool (Js.le (Js.Number y) endYear) => {
    | left _ =>
        let active := activeCountForYear stations (Js.Number y) in
        series_loop stations total endYear (y + 1)
          (series ++ [mkEntry y active (total - active) total]);
    | right _ => series }.
Proof.
  unfold years_left. unfold Js.le in e. cbn [Js.ToNumber] in e.
  destruct (Js.ToNumber endYear) as [b|]; [|discriminate].
  apply Z.leb_le in e. lia.
Qed.

(** [stationActivitySeries]; [default_year] is [data?.default_year] and
    [utcFullYear] is what [new Date().getUTCFullYear()] returns. *)
Definition stationActivitySeries (stations : list Station)
  (default_year : Js.value) (utcFullYear : Z) : list SeriesEntry :=
  if negb (Js.truthy (Js.Number (Js.Array_length stations))) then []
  else
    let startYear := 1900 in
    let endYear := Js.coalesce default_year (Js.Number utcFullYear) in
    let total := Js.Array_length stations in
    series_loop stations total endYear startYear [].

(** [const stations = data?.stations ?? []] *)
Definition stations (data : option Feed) : list Station :=
  match data with
  | Some d =>
      match feed_stations d with
      | Some l => l
      | None => []
      end
  | None => []
  end.

(** The body of the loop of [years]: the numeric bounds of a station go
    into the set. *)
Definition years_step (ys : list Z) (s : Station) : list Z :=
  let ys1 := match Js.number_of (begin_year s) with
             | Some b => Js.Set_add ys b
             | None => ys
             end in
  match Js.number_of (end_year s) with
  | Some e => Js.Set_add ys1 e
  | None => ys1
  end.

(** [years] *)
Definition years (stations : list Station) : list Z :=
  if negb (Js.truthy (Js.Number (Js.Array_length stations))) then []
  else
    let ys := fold_left years_step stations [] in
    Js.Array_sort (fun a b => a - b) ys.

(** The callback of [filtered.slice(0, 200).map]: the values a table row
    is made of. *)
Definition table_row (year : Js.value) (s : Station) : Row :=
  let active := if Js.truthy year then isActive s year else false in
  mkRow (station_id s)
        (station_id s)
        (Js.or (name s) (Js.Str "-"))
        (Js.or (country s) (Js.Str "-"))
        (Js.coalesce (begin_year s) (Js.Str "-"))
        (Js.coalesce (end_year s) (Js.Str "-"))
        (if active then "Active" else "Inactive").

(** The rows of the table. *)
Definition table_rows (filtered : list Station) (year : Js.value)
  : list Row :=
  map (table_row year) (Js.Array_slice 0 200 filtered).

End App.

(** ** The single-search variant of the component *)

Module Part000.

(** [isActive(st, year)] *)
Definition isActive (st : Station) (year : Js.value) : bool :=
  let by_ := Js.coalesce (begin_year st) (Js.Number (-9999)) in
  let ey := Js.coalesce (end_year st) (Js.Number 9999) in
  Js.le by_ year && Js.le year ey.

(** The callback of [stations.filter] in [filtered]; [||] evaluates its
    right operand only when the left one is false. *)
Definition filtered_callback (qq : string) (s : Station)
  : Js.completion bool :=
  if negb (Js.truthy (Js.Str qq)) then Js.Normal true
  else
    station <- Js.call_toLowerCase (Js.or (station_id s) (Js.Str "")) ;;
    if Js.includes station qq then Js.Normal true
    else
      name <- Js.call_toLowerCase (Js.or (name s) (Js.Str "")) ;;
      if Js.includes name qq then Js.Normal true
      else
        country <- Js.call_toLowerCase (Js.or (country s) (Js.Str "")) ;;
        Js.Normal (Js.includes country qq).

(** [filtered] *)
Definition filtered (stations : list Station) (q : string)
  : Js.completion (list Station) :=
  let qq := Js.toLowerCase (Js.trim q) in
  Js.Array_filter (filtered_callback qq) stations.

(** [counts] *)
Definition counts (filtered : list Station) (year : Js.value) : Counts :=
  if negb (Js.truthy (Js.Number (Js.Array_length filtered)))
     || negb (Js.truthy year)
  then mkCounts 0 0 (Js.Array_length filtered)
  else
    let a := fold_left (fun a s => if isActive s year then a + 1 else a)
                       filtered 0 in
    mkCounts a (Js.Array_length filtered - a) (Js.Array_length filtered).

(** [const stations = data?.stations ?? []] *)
Definition stations (data : option Feed) : list Station :=
  match data with
  | Some d =>
      match feed_stations d with
      | Some l => l
      | None => []
      end
  | None => []
  end.

(** The body of the loop of [years]: the numeric bounds of a station go
    into the set. *)
Definition years_step (ys : list Z) (s : Station) : list Z :=
  let ys1 := match Js.number_of (begin_year s) with
             | Some b => Js.Set_add ys b
             | None => ys
             end in
  match Js.number_of (end_year s) with
  | Some e => Js.Set_add ys1 e
  | None => ys1
  end.

(** [years] *)
Definition years (stations : list Station) : list Z :=
  if negb (Js.truthy (Js.Number (Js.Array_length stations))) then []
  else
    let ys := fold_left years_step stations [] in
    Js.Array_sort (fun a b => a - b) ys.

(** The callback of [filtered.slice(0, 200).map]: the values a table row
    is made of. *)
Definition table_row (year : Js.value) (s : Station) : Row :=
  let active := if Js.truthy year then isActive s year else false in
  mkRow (station_id s)
        (station_id s)
        (Js.or (name s) (Js.Str "-"))
        (Js.or (country s) (Js.Str "-"))
        (Js.coalesce (begin_year s) (Js.Str "-"))
        (Js.coalesce (end_year s) (Js.Str "-"))
        (if active then "Active" else "Inactive").

(** The rows of the table. *)
Definition table_rows (filtered : list Station) (year : Js.value)
  : list Row :=
  map (table_row year) (Js.Array_slice 0 200 filtered).

End Part000.

(** ** The state of the component in [src/App.jsx] *)

Module Page.

(** The five [useState] cells. *)
Record state : Type := mkState {
  data : option Feed;
  year : Js.value;
  page : string;
  searchBy : string;
  q : string
}.

(** The initial values given to [useState]. *)
Definition initial : state :=
  mkState None Js.Null "reported" "all" "".

(** [.then((j) => { setData(j); setYear(j.default_year); })] *)
Definition on_json (j : Feed) (st : state) : state :=
  mkState (Some j) (feed_default_year j) (page st) (searchBy st) (q st).

(** [.catch((e) => setData({ error: String(e) }))]; [message] is
    [String(e)]. *)
Definition on_catch (message : string) (st : state) : state :=
  mkState (Some (mkFeed (Js.Str message) Js.Undefined Js.Undefined None))
          (year st) (page st) (searchBy st) (q st).

(** [onChange={(e) => setQ(e.target.value)}] *)
Definition on_query (value : string) (st : state) : state :=
  mkState (data st) (year st) (page st) (searchBy st) value.

(** [onChange={(e) => setSearchBy(e.target.value)}] *)
Definition on_searchBy (value : string) (st : state) : state :=
  mkState (data st) (year st) (page st) value (q st).

(** [onClick={() => setQ("")}] *)
Definition on_clear (st : state) : state :=
  mkState (data st) (year st) (page st) (searchBy st) "".

(** What the user does in the search controls. *)
Inductive search_event : Type :=
| Query (value : string)
| SearchBy (value : string)
| Clear.

Definition on_search (st : state) (ev : search_event) : state :=
  match ev with
  | Query value => on_query value st
  | SearchBy value => on_searchBy value st
  | Clear => on_clear st
  end.

(** [years] as the component computes it from its state. *)
Definition years (st : state) : list Z := App.years (App.stations (data st)).

(** [filtered] as the component computes it from its state. *)
Definition filtered (st : state) : Js.completion (list Station) :=
  App.filtered (App.stations (data st)) (q st) (searchBy st).

(** [counts] as the component computes it from its state. *)
Definition counts (st : state) : Js.completion Counts :=
  r <- filtered st ;; Js.Normal (App.counts r (year st)).

(** [stationActivitySeries] as the component computes it from its state;
    [data?.default_year] is [undefined] while [data] is [null]. *)
Definition stationActivitySeries (st : state) (utcFullYear : Z)
  : list SeriesEntry :=
  App.stationActivitySeries
    (App.stations (data st))
    (match data st with
     | Some d => feed_default_year d
     | None => Js.Undefined
     end)
    utcFullYear.

End Page.

(** ** Sample stations *)

Definition AAA : Station :=
  mkStation (Js.Str "AAA") Js.Undefined Js.Undefined
            (Js.Number 1990) (Js.Number 2005).

Definition X01 : Station :=
  mkStation (Js.Str "X01") (Js.Str "Accra") (Js.Str "Ghana")
            Js.Undefined Js.Undefined.

(** A station that carries an identifier only. *)
Definition unbounded : Station :=
  mkStation (Js.Str "U00") Js.Undefined Js.Undefined
            Js.Undefined Js.Undefined.

(** A station whose years are swapped. *)
Definition swapped : Station :=
  mkStation (Js.Str "SWP") Js.Undefined Js.Undefined
            (Js.Number 2005) (Js.Number 1990).

(** A station whose first year came as text. *)
Definition textual : Station :=
  mkStation (Js.Str "TXT") Js.Undefined Js.Undefined
            (Js.Str "2000") Js.Undefined.

(** ** Vocabulary of the statements *)

(** A bound is absent when the record does not carry it or carries
    [null]. *)
Definition absent (v : Js.value) : bool :=
  match v with
  | Js.Undefined | Js.Null => true
  | _ => false
  end.

(** [sub] occurs in [s]. *)
Definition substring (sub s : string) : Prop :=
  exists a b, s = (a ++ sub ++ b)%string.

(** A string field as the feed documents it: a string, or a value that
    [|| ""] replaces by the empty string. *)
Definition text_field (v : Js.value) : bool :=
  match v with
  | Js.Str _ => true
  | _ => negb (Js.truthy v)
  end.

Definition text_fields (s : Station) : bool :=
  text_field (station_id s) && text_field (name s) && text_field (country s).

(** The case-folded text of a field, the empty string when it has none. *)
Definition folded (v : Js.value) : string :=
  match v with
  | Js.Str s => Js.toLowerCase s
  | _ => EmptyString
  end.

(** The case-folded query. *)
Definition fold_query (q : string) : string := Js.toLowerCase (Js.trim q).

(** The outcome of a search restricted to one field. *)
Definition filtered_by (field : Station -> Js.value) (stations : list Station)
  (q : string) (out : Js.completion (list Station)) : Prop :=
  exists r,
    out = Js.Normal r /\
    r = List.filter
          (fun s => Js.includes (folded (field s)) (fold_query q)) stations /\
    forall s, In s r <->
              In s stations /\ substring (fold_query q) (folded (field s)).

(** [sub] is [l] with some elements left out. *)
Inductive subsequence {A : Type} : list A -> list A -> Prop :=
| subsequence_nil : subsequence [] []
| subsequence_keep x sub l : subsequence sub l -> subsequence (x :: sub) (x :: l)
| subsequence_drop x sub l : subsequence sub l -> subsequence sub (x :: l).

(** A bound as the feed documents it: an integer, or absent. *)
Definition year_field (v : Js.value) : bool :=
  match v with
  | Js.Number _ => true
  | _ => absent v
  end.

(** [searchBy] names none of the three single fields. *)
Definition all_fields (searchBy : string) : bool :=
  negb (searchBy =? "station")%string && negb (searchBy =? "name")%string
  && negb (searchBy =? "country")%string.

(** The station matches the folded query [qq] in some field. *)
Definition matches_any (qq : string) (s : Station) : bool :=
  Js.includes (folded (station_id s)) qq || Js.includes (folded (name s)) qq
  || Js.includes (folded (country s)) qq.

(** The station matches the folded query [qq] under the scope [searchBy]. *)
Definition matches (searchBy qq : string) (s : Station) : bool :=
  if (searchBy =? "station")%string
  then Js.includes (folded (station_id s)) qq
  else if (searchBy =? "name")%string
  then Js.includes (folded (name s)) qq
  else if (searchBy =? "country")%string
  then Js.includes (folded (country s)) qq
  else matches_any qq s.

(** How many rows carry the status [status]. *)
Definition count_status (status : string) (rows : list Row) : Z :=
  Z.of_nat (List.length
              (List.filter (fun r => (cell_status r =? status)%string) rows)).

(** The [n] consecutive years from [lo] on. *)
Fixpoint years_from (lo : Z) (n : nat) : list Z :=
  match n with
  | O => []
  | S n' => lo :: years_from (lo + 1) n'
  end.

(** How many stations of a collection satisfy [p]. *)
Definition count (p : Station -> bool) (stations : list Station) : Z :=
  Z.of_nat (List.length (List.filter p stations)).

(** The entry the series loop pushes for the year [y]. *)
Definition entry_at (stations : list Station) (total y : Z) : SeriesEntry :=
  let active := App.activeCountForYear stations (Js.Number y) in
  mkEntry y active (total - active) total.

(** ** The status classifier *)

Section Classifier.

Variable st : Station.
Variable y : Z.

Lemma App_isActive_numbers (b e : Z) :
  begin_year st = Js.Number b -> end_year st = Js.Number e ->
  App.isActive st (Js.Number y) = (b <=? y) && (y <=? e).
Proof.
  intros Hb He. unfold App.isActive. rewrite Hb, He. reflexivity.
Qed.

Lemma Part000_isActive_numbers (b e : Z) :
  begin_year st = Js.Number b -> end_year st = Js.Number e ->
  Part000.isActive st (Js.Number y) = (b <=? y) && (y <=? e).
Proof.
  intros Hb He. unfold Part000.isActive. rewrite Hb, He. reflexivity.
Qed.

Lemma App_isActive_absent :
  absent (begin_year st) = true -> absent (end_year st) = true ->
  App.isActive st (Js.Number y) = (-9999 <=? y) && (y <=? 9999).
Proof.
  unfold App.isActive.
  destruct (begin_year st); try discriminate;
    destruct (end_year st); try discriminate; reflexivity.
Qed.

Lemma Part000_isActive_absent :
  absent (begin_year st) = true -> absent (end_year st) = true ->
  Part000.isActive st (Js.Number y) = (-9999 <=? y) && (y <=? 9999).
Proof.
  unfold Part000.isActive.
  destruct (begin_year st); try discriminate;
    destruct (end_year st); try discriminate; reflexivity.
Qed.

(** In [src/App.jsx] a bound that is not a number counts as no bound,
    whatever it is. *)
Lemma App_isActive_not_a_number :
  Js.typeof (begin_year st) <> "number"%string ->
  Js.typeof (end_year st) <> "number"%string ->
  App.isActive st (Js.Number y) = (-9999 <=? y) && (y <=? 9999).
Proof.
  unfold App.isActive. intros Hb He.
  destruct (String.eqb_spec (Js.typeof (begin_year st)) "number");
    [contradiction|].
  destruct (String.eqb_spec (Js.typeof (end_year st)) "number");
    [contradiction|].
  reflexivity.
Qed.

End Classifier.

(** C2, as stated, fails: a station without bounds is inactive in the year
    10000 and in the year -10000, in both components. *)
Lemma isActive_unbounded_extreme_year :
  absent (begin_year unbounded) = true /\ absent (end_year unbounded) = true /\
  App.isActive unbounded (Js.Number 10000) = false /\
  App.isActive unbounded (Js.Number (-10000)) = false /\
  Part000.isActive unbounded (Js.Number 10000) = false /\
  Part000.isActive unbounded (Js.Number (-10000)) = false.
Proof. repeat split. Qed.

(** C2, amended: a station whose [begin_year] and [end_year] are both absent
    is active exactly in the years from -9999 to 9999, in both components;
    outside that range [isActive] returns false. *)
Theorem isActive_absent_bounds (st : Station) (y : Z) :
  absent (begin_year st) = true -> absent (end_year st) = true ->
  (App.isActive st (Js.Number y) = true <-> -9999 <= y <= 9999) /\
  (Part000.isActive st (Js.Number y) = true <-> -9999 <= y <= 9999).
Proof.
  intros Hb He.
  rewrite App_isActive_absent, Part000_isActive_absent by assumption.
  rewrite andb_true_iff, !Z.leb_le. tauto.
Qed.

Lemma isActive_absent_bounds_witness :
  (App.isActive unbounded (Js.Number 2024) = true <-> -9999 <= 2024 <= 9999) /\
  (Part000.isActive unbounded (Js.Number 2024) = true
   <-> -9999 <= 2024 <= 9999).
Proof.
  apply (isActive_absent_bounds unbounded 2024); reflexivity.
Defined.

(** C3: the single-search component breaks the claim.  With [begin_year] the
    string "2000" and the year 1990, its [isActive] compares the string as
    the number 2000 and returns false, where [src/App.jsx] and a station
    with no [begin_year] give true. *)
Theorem Part000_isActive_textual_bound :
  Js.typeof (begin_year textual) = "string"%string /\
  Part000.isActive textual (Js.Number 1990) = false /\
  App.isActive textual (Js.Number 1990) = true /\
  Part000.isActive unbounded (Js.Number 1990) = true.
Proof. repeat split. Qed.

(** C4, as stated, fails: with [begin_year] 2005 and [end_year] 1990 the
    station is active in neither of its two bounds. *)
Lemma isActive_swapped_bounds :
  begin_year swapped = Js.Number 2005 /\ end_year swapped = Js.Number 1990 /\
  App.isActive swapped (Js.Number 2005) = false /\
  App.isActive swapped (Js.Number 1990) = false.
Proof. repeat split. Qed.

(** C4, amended: for every station whose [begin_year] and [end_year] are
    integers with [begin_year <= end_year], [isActive] is true at
    [begin_year] and at [end_year]; the station AAA (1990 to 2005) is active
    in 1990 and 2005 and inactive in 1989 and 2006. *)
Theorem isActive_boundaries (st : Station) (b e : Z) :
  begin_year st = Js.Number b -> end_year st = Js.Number e -> b <= e ->
  App.isActive st (Js.Number b) = true /\
  App.isActive st (Js.Number e) = true /\
  App.isActive AAA (Js.Number 1990) = true /\
  App.isActive AAA (Js.Number 2005) = true /\
  App.isActive AAA (Js.Number 1989) = false /\
  App.isActive AAA (Js.Number 2006) = false.
Proof.
  intros Hb He Hle.
  rewrite !(App_isActive_numbers st _ b e Hb He).
  repeat split; apply andb_true_iff; rewrite !Z.leb_le; lia.
Qed.

Lemma isActive_boundaries_witness :
  App.isActive AAA (Js.Number 1990) = true /\
  App.isActive AAA (Js.Number 2005) = true /\
  App.isActive AAA (Js.Number 1990) = true /\
  App.isActive AAA (Js.Number 2005) = true /\
  App.isActive AAA (Js.Number 1989) = false /\
  App.isActive AAA (Js.Number 2006) = false.
Proof.
  apply (isActive_boundaries AAA 1990 2005); [reflexivity | reflexivity | lia].
Defined.

(** C5: a station whose two bounds are integers with
    [begin_year > end_year] is active in no year; [isActive] is a total
    function and returns false there, in both components. *)
Theorem isActive_empty_interval (st : Station) (b e y : Z) :
  begin_year st = Js.Number b -> end_year st = Js.Number e -> b > e ->
  App.isActive st (Js.Number y) = false /\
  Part000.isActive st (Js.Number y) = false.
Proof.
  intros Hb He Hgt.
  rewrite (App_isActive_numbers st y b e Hb He).
  rewrite (Part000_isActive_numbers st y b e Hb He).
  split; apply andb_false_iff; rewrite !Z.leb_gt; lia.
Qed.

Lemma isActive_empty_interval_witness :
  App.isActive swapped (Js.Number 2000) = false /\
  Part000.isActive swapped (Js.Number 2000) = false.
Proof.
  apply (isActive_empty_interval swapped 2005 1990 2000);
    [reflexivity | reflexivity | lia].
Defined.

(** ** The collection filter *)

Section ArrayFilter.

Context {A : Type}.
Variable p : A -> Js.completion bool.

Lemma Array_filter_fixed (xs r : list A) :
  Js.Array_filter p xs = Js.Normal r -> Js.Array_filter p r = Js.Normal r.
Proof.
  revert r. induction xs as [|x xs IH]; simpl; intros r H.
  - inversion H. reflexivity.
  - destruct (p x) as [keep|] eqn:Hx; simpl in H; [|discriminate].
    destruct (Js.Array_filter p xs) as [rest|]; simpl in H; [|discriminate].
    inversion H; subst r; clear H.
    specialize (IH rest eq_refl).
    destruct keep; [|exact IH].
    simpl. rewrite Hx. simpl. rewrite IH. reflexivity.
Qed.

Lemma Array_filter_twice (xs : list A) :
  Js.bind (Js.Array_filter p xs) (Js.Array_filter p) = Js.Array_filter p xs.
Proof.
  destruct (Js.Array_filter p xs) as [r|e] eqn:H; simpl; [|reflexivity].
  now apply Array_filter_fixed in H.
Qed.

Lemma Array_filter_pure (f : A -> bool) (xs : list A) :
  (forall x, In x xs -> p x = Js.Normal (f x)) ->
  Js.Array_filter p xs = Js.Normal (List.filter f xs).
Proof.
  induction xs as [|x xs IH]; simpl; intros H; [reflexivity|].
  rewrite (H x (or_introl eq_refl)). simpl.
  rewrite IH by (intros; apply H; now right). reflexivity.
Qed.

End ArrayFilter.

Lemma filter_all {A} (f : A -> bool) (xs : list A) :
  (forall x, In x xs -> f x = true) -> List.filter f xs = xs.
Proof.
  induction xs as [|x xs IH]; simpl; intros H; [reflexivity|].
  rewrite (H x (or_introl eq_refl)).
  f_equal. apply IH. intros; apply H; now right.
Qed.

(** *** Substring search *)

Lemma prefix_app (pre s : string) :
  String.prefix pre s = true <-> exists b, s = (pre ++ b)%string.
Proof.
  revert s. induction pre as [|c pre IH]; intros s; simpl.
  - split; [intros _; now exists s | intros _; now destruct s].
  - destruct s as [|d s]; simpl.
    + split; [discriminate | intros [b Hb]; discriminate].
    + destruct (Ascii.ascii_dec c d) as [->|Hcd].
      * rewrite IH. split; intros [b Hb]; exists b; congruence.
      * split; [discriminate | intros [b Hb]; congruence].
Qed.

Lemma includes_unfold (s sub : string) :
  Js.includes s sub =
  String.prefix sub s ||
  match s with
  | EmptyString => false
  | String _ s' => Js.includes s' sub
  end.
Proof. destruct s; reflexivity. Qed.

Lemma includes_empty (s : string) : Js.includes s "" = true.
Proof. now destruct s. Qed.

Lemma includes_substring (s sub : string) :
  Js.includes s sub = true <-> substring sub s.
Proof.
  unfold substring. split.
  - induction s as [|c s IH]; rewrite includes_unfold, orb_true_iff.
    + intros [H|H]; [|discriminate].
      apply prefix_app in H. destruct H as [b Hb]. now exists EmptyString, b.
    + intros [H|H].
      * apply prefix_app in H. destruct H as [b Hb]. now exists EmptyString, b.
      * destruct (IH H) as (a & b & Hab).
        exists (String c a), b. simpl. now rewrite Hab.
  - intros (a & b & ->). induction a as [|c a IH].
    + rewrite includes_unfold. simpl.
      replace (String.prefix sub (sub ++ b)) with true; [reflexivity|].
      symmetry. apply prefix_app. now exists b.
    + change (String c a ++ sub ++ b)%string
        with (String c (a ++ sub ++ b)%string).
      rewrite includes_unfold, IH. apply orb_true_r.
Qed.

(** *** The callbacks on stations with text fields *)

Lemma call_toLowerCase_text (v : Js.value) :
  text_field v = true ->
  Js.call_toLowerCase (Js.or v (Js.Str "")) = Js.Normal (folded v).
Proof.
  unfold Js.or. destruct v as [| |b|n|s]; simpl.
  - reflexivity.
  - reflexivity.
  - destruct b; [discriminate | reflexivity].
  - destruct (n =? 0); [reflexivity | discriminate].
  - intros _. destruct s; reflexivity.
Qed.

Lemma text_fields_inv (s : Station) :
  text_fields s = true ->
  text_field (station_id s) = true /\ text_field (name s) = true /\
  text_field (country s) = true.
Proof.
  unfold text_fields. rewrite !andb_true_iff. tauto.
Qed.

Lemma App_callback_text (searchBy qq : string) (s : Station) :
  text_fields s = true ->
  App.filtered_callback searchBy qq s =
  Js.Normal
    (if (searchBy =? "station")%string
     then Js.includes (folded (station_id s)) qq
     else if (searchBy =? "name")%string
     then Js.includes (folded (name s)) qq
     else if (searchBy =? "country")%string
     then Js.includes (folded (country s)) qq
     else Js.includes (folded (station_id s)) qq
          || Js.includes (folded (name s)) qq
          || Js.includes (folded (country s)) qq).
Proof.
  intros H. apply text_fields_inv in H. destruct H as (H1 & H2 & H3).
  unfold App.filtered_callback.
  rewrite !call_toLowerCase_text by assumption. simpl.
  repeat match goal with |- context [if ?c then _ else _] => destruct c end;
    reflexivity.
Qed.

Lemma truthy_Str_empty (s : string) :
  Js.truthy (Js.Str s) = false <-> s = EmptyString.
Proof.
  simpl. rewrite negb_false_iff. apply String.eqb_eq.
Qed.

Lemma App_filtered_single (searchBy : string) (field : Station -> Js.value)
  (stations : list Station) (q : string) :
  (forall qq s, text_fields s = true ->
     App.filtered_callback searchBy qq s =
     Js.Normal (Js.includes (folded (field s)) qq)) ->
  forallb text_fields stations = true ->
  filtered_by field stations q (App.filtered stations q searchBy).
Proof.
  intros Hcb Hshape. rewrite forallb_forall in Hshape.
  eexists. split; [|split; [reflexivity|]].
  - unfold App.filtered. fold (fold_query q).
    destruct (Js.truthy (Js.Str (fold_query q))) eqn:Hq; simpl.
    + apply Array_filter_pure. intros s Hs. now apply Hcb, Hshape.
    + apply truthy_Str_empty in Hq. rewrite Hq.
      rewrite filter_all; [reflexivity|].
      intros; apply includes_empty.
  - intros s. rewrite filter_In, includes_substring. reflexivity.
Qed.

(** C6: when the query is empty after trimming, the filter returns the
    collection itself, every station in its place, whatever the scope; this
    holds for the filter of [src/App.jsx] and for the single-search one. *)
Theorem filtered_empty_query (stations : list Station) (q searchBy : string) :
  Js.trim q = EmptyString ->
  App.filtered stations q searchBy = Js.Normal stations /\
  Part000.filtered stations q = Js.Normal stations.
Proof.
  intros Hq. split.
  - unfold App.filtered. rewrite Hq. reflexivity.
  - unfold Part000.filtered. rewrite Hq.
    rewrite (Array_filter_pure _ (fun _ => true)).
    + now rewrite filter_all.
    + reflexivity.
Qed.

Lemma filtered_empty_query_witness :
  App.filtered [AAA; X01] "  " "name" = Js.Normal [AAA; X01] /\
  Part000.filtered [AAA; X01] "  " = Js.Normal [AAA; X01].
Proof.
  apply (filtered_empty_query [AAA; X01] "  " "name"). reflexivity.
Defined.

(** C7: filtering is idempotent: running the filter on its own result with
    the same query and scope gives that result again, same stations in the
    same order (and the same exception when the first run raises one). *)
Theorem filtered_idempotent (stations : list Station) (q searchBy : string) :
  (r <- App.filtered stations q searchBy ;; App.filtered r q searchBy)
  = App.filtered stations q searchBy.
Proof.
  unfold App.filtered. cbv zeta.
  destruct (negb (Js.truthy (Js.Str (Js.toLowerCase (Js.trim q))))) eqn:Hq;
    cbn [Js.bind].
  - reflexivity.
  - apply Array_filter_twice.
Qed.

(** C8: on stations whose identifier, name and country are text, a search
    restricted to one field keeps exactly the stations whose folded field
    contains the folded query, in their order, and does not look at the
    other two fields.  For the collection [X01] (Accra, Ghana) the query
    "gha" finds the station in all fields and nothing in the identifier. *)
Theorem filtered_single_field (stations : list Station) (q : string) :
  forallb text_fields stations = true ->
  filtered_by station_id stations q (App.filtered stations q "station") /\
  filtered_by name stations q (App.filtered stations q "name") /\
  filtered_by country stations q (App.filtered stations q "country") /\
  App.filtered [X01] "gha" "all" = Js.Normal [X01] /\
  App.filtered [X01] "gha" "station" = Js.Normal [].
Proof.
  intros H. repeat split.
  - apply App_filtered_single; [|exact H].
    intros qq s Hs. now rewrite App_callback_text.
  - apply App_filtered_single; [|exact H].
    intros qq s Hs. now rewrite App_callback_text.
  - apply App_filtered_single; [|exact H].
    intros qq s Hs. now rewrite App_callback_text.
Qed.

Lemma filtered_single_field_witness :
  filtered_by station_id [X01; AAA] "a" (App.filtered [X01; AAA] "a" "station")
  /\ filtered_by name [X01; AAA] "a" (App.filtered [X01; AAA] "a" "name")
  /\ filtered_by country [X01; AAA] "a" (App.filtered [X01; AAA] "a" "country")
  /\ App.filtered [X01] "gha" "all" = Js.Normal [X01]
  /\ App.filtered [X01] "gha" "station" = Js.Normal [].
Proof.
  apply (filtered_single_field [X01; AAA] "a"). reflexivity.
Defined.

(** A station with a numeric name makes the callback raise, whatever the
    scope: the three fields are lower-cased before the scope is read. *)
Example filtered_numeric_name :
  App.filtered [mkStation (Js.Str "N01") (Js.Number 5) Js.Undefined
                          Js.Undefined Js.Undefined] "n0" "station"
  = Js.Throw Js.TypeError.
Proof. reflexivity. Qed.

(** ** Counting *)

Lemma fold_count (p : Station -> bool) (stations : list Station) (a : Z) :
  fold_left (fun a s => if p s then a + 1 else a) stations a
  = a + count p stations.
Proof.
  unfold count. revert a.
  induction stations as [|s l IH]; intros a; simpl; [lia|].
  rewrite IH. destruct (p s); simpl List.length; lia.
Qed.

Lemma count_bounds (p : Station -> bool) (stations : list Station) :
  0 <= count p stations <= Js.Array_length stations.
Proof.
  unfold count, Js.Array_length.
  pose proof (filter_length_le p stations). lia.
Qed.

Lemma activeCountForYear_count (stations : list Station) (y : Js.value) :
  App.activeCountForYear stations y
  = count (fun s => App.isActive s y) stations.
Proof.
  unfold App.activeCountForYear.
  change (App.activeCount_step y)
    with (fun a s => if App.isActive s y then a + 1 else a).
  rewrite fold_count. lia.
Qed.

(** ** The activity series *)

Lemma le_Number (y : Z) (v : Js.value) :
  Js.le (Js.Number y) v =
  match Js.ToNumber v with
  | Some e => y <=? e
  | None => false
  end.
Proof. destruct v; reflexivity. Qed.

Lemma series_loop_unfold stations t endYear y acc :
  App.series_loop stations t endYear y acc =
  if Js.le (Js.Number y) endYear
  then App.series_loop stations t endYear (y + 1)
         (acc ++ [entry_at stations t y])
  else acc.
Proof.
  rewrite App.series_loop_equation_1.
  destruct (Sumbool.sumbool_of_bool (Js.le (Js.Number y) endYear)) as [H|H];
    unfold App.series_loop_unfold_clause_1; rewrite H; reflexivity.
Qed.

Lemma series_loop_years stations t endYear :
  forall n y acc,
    App.years_left endYear y = n ->
    App.series_loop stations t endYear y acc
    = acc ++ map (entry_at stations t) (years_from y n).
Proof.
  unfold App.years_left.
  induction n as [|n IH]; intros y acc Hn;
    rewrite series_loop_unfold, le_Number;
    destruct (Js.ToNumber endYear) as [e|]; simpl.
  - destruct (Z.leb_spec y e); [lia|]. now rewrite app_nil_r.
  - now rewrite app_nil_r.
  - destruct (Z.leb_spec y e); [|lia].
    rewrite IH by lia. now rewrite <- app_assoc.
  - discriminate.
Qed.

Lemma stationActivitySeries_cons s stations default_year utc :
  App.stationActivitySeries (s :: stations) default_year utc
  = map (entry_at (s :: stations) (Js.Array_length (s :: stations)))
        (years_from 1900
           (App.years_left (Js.coalesce default_year (Js.Number utc)) 1900)).
Proof.
  unfold App.stationActivitySeries.
  replace (negb (Js.truthy (Js.Number (Js.Array_length (s :: stations)))))
    with false.
  - cbv zeta. now rewrite (series_loop_years _ _ _ _ _ _ eq_refl).
  - unfold Js.Array_length, Js.truthy. rewrite negb_involutive.
    symmetry. apply Z.eqb_neq. simpl List.length. lia.
Qed.

Lemma years_from_In (n : nat) :
  forall lo y, In y (years_from lo n) <-> lo <= y < lo + Z.of_nat n.
Proof.
  induction n as [|n IH]; intros lo y; simpl years_from.
  - simpl. lia.
  - simpl In. rewrite IH. lia.
Qed.

Lemma years_from_length (n : nat) :
  forall lo, List.length (years_from lo n) = n.
Proof.
  induction n as [|n IH]; intros lo; simpl; [reflexivity|].
  now rewrite IH.
Qed.

(** C1, as stated, fails: for the empty collection and the end year 1901 the
    series is empty, not the two zero entries of 1900 and 1901. *)
Lemma stationActivitySeries_empty_1901 :
  App.stationActivitySeries [] (Js.Number 1901) 2026 = [] /\
  App.stationActivitySeries [] (Js.Number 1901) 2026
  <> [mkEntry 1900 0 0 0; mkEntry 1901 0 0 0].
Proof. split; [reflexivity | discriminate]. Qed.

(** C1, amended: for every end year the series of an empty collection is
    the empty series; the series of a non-empty collection has one entry
    per integer year from 1900 to the end year, in ascending order. *)
Theorem stationActivitySeries_empty (default_year : Js.value) (utc e : Z)
  (s : Station) (stations : list Station) :
  App.stationActivitySeries [] default_year utc = [] /\
  map year (App.stationActivitySeries (s :: stations) (Js.Number e) utc)
  = years_from 1900 (Z.to_nat (e - 1899)).
Proof.
  split; [reflexivity|].
  rewrite stationActivitySeries_cons, map_map. simpl.
  unfold App.years_left. simpl.
  replace (e + 1 - 1900) with (e - 1899) by lia.
  apply map_id.
Qed.

(** C9: every entry of the series over a collection has
    [active + inactive = total], its [total] is the size of the collection,
    its [inactive] is [total - active], and its [active] is the number of
    stations that are active in the entry's year. *)
Theorem series_entry_totals (stations : list Station)
  (default_year : Js.value) (utc : Z) (entry : SeriesEntry) :
  In entry (App.stationActivitySeries stations default_year utc) ->
  entry_active entry + entry_inactive entry = entry_total entry /\
  entry_total entry = Js.Array_length stations /\
  entry_inactive entry = entry_total entry - entry_active entry /\
  entry_active entry
  = count (fun s => App.isActive s (Js.Number (year entry))) stations.
Proof.
  destruct stations as [|s l]; [intros []|].
  rewrite stationActivitySeries_cons, in_map_iff.
  intros (y & <- & _). unfold entry_at.
  cbn [entry_active entry_inactive entry_total year].
  rewrite activeCountForYear_count. lia.
Qed.

Lemma series_entry_totals_witness :
  entry_active (mkEntry 1900 0 1 1) + entry_inactive (mkEntry 1900 0 1 1)
  = entry_total (mkEntry 1900 0 1 1) /\
  entry_total (mkEntry 1900 0 1 1) = Js.Array_length [AAA] /\
  entry_inactive (mkEntry 1900 0 1 1)
  = entry_total (mkEntry 1900 0 1 1) - entry_active (mkEntry 1900 0 1 1) /\
  entry_active (mkEntry 1900 0 1 1)
  = count (fun s => App.isActive s (Js.Number (year (mkEntry 1900 0 1 1))))
          [AAA].
Proof.
  apply (series_entry_totals [AAA] (Js.Number 1901) 2026 (mkEntry 1900 0 1 1)).
  left. reflexivity.
Defined.

(** ** The KPI counts *)

Lemma Array_length_falsy (stations : list Station) :
  Js.truthy (Js.Number (Js.Array_length stations)) = false <-> stations = [].
Proof.
  unfold Js.truthy, Js.Array_length.
  rewrite negb_false_iff, Z.eqb_eq.
  destruct stations; simpl List.length; split; intros H;
    try reflexivity; try discriminate; lia.
Qed.

Lemma falsy_year (selected : Js.value) :
  absent selected = true \/ selected = Js.Number 0 ->
  Js.truthy selected = false.
Proof.
  intros [H | ->]; [|reflexivity].
  destruct selected; try discriminate; reflexivity.
Qed.

Section Counts.

Variable filtered : list Station.
Variable selected : Js.value.

Lemma counts_closed :
  absent selected = true \/ selected = Js.Number 0 \/ filtered = [] ->
  App.counts filtered selected = mkCounts 0 0 (Js.Array_length filtered) /\
  Part000.counts filtered selected = mkCounts 0 0 (Js.Array_length filtered).
Proof.
  intros H. unfold App.counts, Part000.counts.
  replace (negb (Js.truthy (Js.Number (Js.Array_length filtered)))
           || negb (Js.truthy selected)) with true; [now split|].
  symmetry. apply orb_true_iff.
  destruct H as [H | [H | H]].
  - right. rewrite falsy_year; auto.
  - right. rewrite falsy_year; auto.
  - left. apply negb_true_iff. now apply Array_length_falsy.
Qed.

Lemma counts_open (y : Z) :
  selected = Js.Number y -> y <> 0 -> filtered <> [] ->
  App.counts filtered selected
  = mkCounts (count (fun s => App.isActive s selected) filtered)
             (Js.Array_length filtered
              - count (fun s => App.isActive s selected) filtered)
             (Js.Array_length filtered) /\
  Part000.counts filtered selected
  = mkCounts (count (fun s => Part000.isActive s selected) filtered)
             (Js.Array_length filtered
              - count (fun s => Part000.isActive s selected) filtered)
             (Js.Array_length filtered).
Proof.
  intros Hsel Hy Hne. unfold App.counts, Part000.counts.
  replace (negb (Js.truthy (Js.Number (Js.Array_length filtered)))
           || negb (Js.truthy selected)) with false.
  - cbv zeta. rewrite !fold_count. now split.
  - symmetry. apply orb_false_iff. rewrite !negb_false_iff. split.
    + destruct (Js.truthy (Js.Number (Js.Array_length filtered))) eqn:E;
        [reflexivity|].
      apply Array_length_falsy in E. contradiction.
    + subst selected. simpl. now apply negb_true_iff, Z.eqb_neq.
Qed.

End Counts.

(** C10: [counts] returns [{active: 0, inactive: 0, total: |filtered|}]
    when the selected year is absent or the number 0, or the filtered
    collection is empty.  So with no selected year and a non-empty
    collection [active + inactive] is 0 and differs from [total], while with
    a selected year other than 0 and a non-empty collection
    [active + inactive = total].  Both components compute it this way. *)
Theorem counts_edge_cases (filtered : list Station) (selected : Js.value) :
  (absent selected = true \/ selected = Js.Number 0 \/ filtered = [] ->
   App.counts filtered selected = mkCounts 0 0 (Js.Array_length filtered) /\
   Part000.counts filtered selected
   = mkCounts 0 0 (Js.Array_length filtered)) /\
  (absent selected = true -> filtered <> [] ->
   active (App.counts filtered selected)
   + inactive (App.counts filtered selected) = 0 /\
   0 <> total (App.counts filtered selected) /\
   active (Part000.counts filtered selected)
   + inactive (Part000.counts filtered selected) = 0 /\
   0 <> total (Part000.counts filtered selected)) /\
  (forall y, selected = Js.Number y -> y <> 0 -> filtered <> [] ->
   active (App.counts filtered selected)
   + inactive (App.counts filtered selected)
   = total (App.counts filtered selected) /\
   active (Part000.counts filtered selected)
   + inactive (Part000.counts filtered selected)
   = total (Part000.counts filtered selected)).
Proof.
  split; [|split].
  - apply counts_closed.
  - intros Habs Hne.
    destruct (counts_closed filtered selected (or_introl Habs)) as [-> ->].
    cbn [active inactive total].
    assert (Js.Array_length filtered <> 0).
    { unfold Js.Array_length. destruct filtered; [contradiction|].
      simpl List.length. lia. }
    lia.
  - intros y Hsel Hy Hne.
    destruct (counts_open filtered selected y Hsel Hy Hne) as [-> ->].
    cbn [active inactive total]. lia.
Qed.

Lemma counts_edge_cases_witness :
  App.counts [AAA; X01] Js.Undefined = mkCounts 0 0 2 /\
  active (App.counts [AAA; X01] Js.Undefined)
  + inactive (App.counts [AAA; X01] Js.Undefined) = 0 /\
  0 <> total (App.counts [AAA; X01] Js.Undefined) /\
  active (App.counts [AAA; X01] (Js.Number 1980))
  + inactive (App.counts [AAA; X01] (Js.Number 1980))
  = total (App.counts [AAA; X01] (Js.Number 1980)).
Proof.
  destruct (counts_edge_cases [AAA; X01] Js.Undefined) as (H1 & H2 & _).
  destruct (counts_edge_cases [AAA; X01] (Js.Number 1980)) as (_ & _ & H3).
  destruct (H1 (or_introl eq_refl)) as [H1a _].
  destruct (H2 eq_refl ltac:(discriminate)) as (H2a & H2b & _).
  destruct (H3 1980 eq_refl ltac:(lia) ltac:(discriminate)) as [H3a _].
  repeat split; assumption.
Defined.

(** ** The selectable years *)

Lemma number_of_Some (v : Js.value) (n : Z) :
  Js.number_of v = Some n <-> v = Js.Number n.
Proof.
  destruct v; unfold Js.number_of; simpl; split; intros H;
    try discriminate; congruence.
Qed.

Lemma Set_add_In (ys : list Z) (v x : Z) :
  In x (Js.Set_add ys v) <-> In x ys \/ x = v.
Proof.
  unfold Js.Set_add. destruct (existsb (Z.eqb v) ys) eqn:E.
  - apply existsb_exists in E. destruct E as (w & Hw & Hvw).
    apply Z.eqb_eq in Hvw. subst w. split; [now left|].
    intros [H | ->]; assumption.
  - rewrite in_app_iff. simpl. intuition congruence.
Qed.

Lemma Set_add_NoDup (ys : list Z) (v : Z) :
  NoDup ys -> NoDup (Js.Set_add ys v).
Proof.
  intros Hnd. unfold Js.Set_add.
  destruct (existsb (Z.eqb v) ys) eqn:E; [assumption|].
  assert (~ In v ys) as Hv.
  { intros Hin. apply Bool.not_true_iff_false in E. apply E.
    apply existsb_exists. exists v. split; [assumption | apply Z.eqb_refl]. }
  clear E. induction ys as [|a ys IH]; simpl.
  - constructor; [intros [] | constructor].
  - inversion Hnd; subst. constructor.
    + rewrite in_app_iff. simpl. intros [H | [H | []]]; [contradiction|].
      apply Hv. now left.
    + apply IH; [assumption|]. intros H; apply Hv. now right.
Qed.

Lemma years_step_In (ys : list Z) (s : Station) (x : Z) :
  In x (App.years_step ys s) <->
  In x ys \/ begin_year s = Js.Number x \/ end_year s = Js.Number x.
Proof.
  unfold App.years_step.
  destruct (Js.number_of (begin_year s)) as [b|] eqn:Hb;
    destruct (Js.number_of (end_year s)) as [e|] eqn:He;
    rewrite ?Set_add_In;
    rewrite <- ?number_of_Some, ?Hb, ?He;
    intuition congruence.
Qed.

Lemma years_step_NoDup (ys : list Z) (s : Station) :
  NoDup ys -> NoDup (App.years_step ys s).
Proof.
  intros H. unfold App.years_step.
  destruct (Js.number_of (begin_year s)), (Js.number_of (end_year s));
    repeat apply Set_add_NoDup; assumption.
Qed.

Lemma years_loop_In (stations : list Station) :
  forall ys x,
    In x (fold_left App.years_step stations ys) <->
    In x ys \/
    exists s, In s stations /\
              (begin_year s = Js.Number x \/ end_year s = Js.Number x).
Proof.
  induction stations as [|s l IH]; intros ys x; simpl.
  - split; [now left | intros [H | (s & [] & _)]; exact H].
  - rewrite IH, years_step_In. split.
    + intros [[H | H] | (s' & Hs' & H)].
      * now left.
      * right. exists s. split; [now left | exact H].
      * right. exists s'. split; [now right | exact H].
    + intros [H | (s' & [<- | Hs'] & H)].
      * left. now left.
      * left. now right.
      * right. now exists s'.
Qed.

Lemma years_loop_NoDup (stations : list Station) :
  forall ys, NoDup ys -> NoDup (fold_left App.years_step stations ys).
Proof.
  induction stations as [|s l IH]; intros ys H; simpl; [assumption|].
  now apply IH, years_step_NoDup.
Qed.

Lemma sort_insert_In (a x : Z) (l : list Z) :
  In x (Js.sort_insert (fun a b => a - b) a l) <-> x = a \/ In x l.
Proof.
  induction l as [|b l IH]; simpl.
  - intuition congruence.
  - destruct (a - b <=? 0); simpl; rewrite ?IH; intuition congruence.
Qed.

Lemma Array_sort_In (x : Z) (l : list Z) :
  In x (Js.Array_sort (fun a b => a - b) l) <-> In x l.
Proof.
  induction l as [|a l IH]; simpl; [reflexivity|].
  rewrite sort_insert_In, IH. intuition congruence.
Qed.

Lemma sort_insert_ascending (a : Z) (l : list Z) :
  Sorted Z.lt l -> ~ In a l ->
  Sorted Z.lt (Js.sort_insert (fun a b => a - b) a l).
Proof.
  induction l as [|b l IH]; simpl; intros Hs Hn.
  - repeat constructor.
  - inversion Hs as [|? ? Hs' Hhd]; subst.
    destruct (Z.leb_spec (a - b) 0).
    + constructor; [assumption|]. constructor.
      assert (a <> b) by (intros ->; apply Hn; now left). lia.
    + constructor.
      * apply IH; [assumption | intros H'; apply Hn; now right].
      * destruct l as [|c l]; simpl.
        -- constructor. lia.
        -- inversion Hhd; subst.
           destruct (a - c <=? 0); constructor; lia.
Qed.

Lemma Array_sort_ascending (l : list Z) :
  NoDup l -> Sorted Z.lt (Js.Array_sort (fun a b => a - b) l).
Proof.
  induction 1 as [|a l Hn Hnd IH]; simpl; [constructor|].
  apply sort_insert_ascending; [assumption|].
  now rewrite Array_sort_In.
Qed.

Lemma Part000_years_App (stations : list Station) :
  Part000.years stations = App.years stations.
Proof. reflexivity. Qed.

(** X1: the selectable years come in strictly ascending order, so no year
    is offered twice, in both components. *)
Theorem years_ascending (stations : list Station) :
  Sorted Z.lt (App.years stations) /\ Sorted Z.lt (Part000.years stations).
Proof.
  assert (Sorted Z.lt (App.years stations)) as H;
    [|split; [exact H | rewrite Part000_years_App; exact H]].
  unfold App.years.
  destruct (negb (Js.truthy (Js.Number (Js.Array_length stations))));
    [constructor|].
  apply Array_sort_ascending, years_loop_NoDup. constructor.
Qed.

(** X2: a year is selectable exactly when some station has it as a numeric
    [begin_year] or [end_year]; a bound that is absent or not a number adds
    nothing.  Both components. *)
Theorem years_membership (stations : list Station) (y : Z) :
  (In y (App.years stations) <->
   exists s, In s stations /\
             (begin_year s = Js.Number y \/ end_year s = Js.Number y)) /\
  (In y (Part000.years stations) <->
   exists s, In s stations /\
             (begin_year s = Js.Number y \/ end_year s = Js.Number y)).
Proof.
  assert (In y (App.years stations) <->
          exists s, In s stations /\
            (begin_year s = Js.Number y \/ end_year s = Js.Number y)) as H;
    [|split; [exact H | rewrite Part000_years_App; exact H]].
  unfold App.years.
  destruct stations as [|s0 l].
  - simpl. split; [intros [] | intros (s & [] & _)].
  - replace (negb (Js.truthy (Js.Number (Js.Array_length (s0 :: l)))))
      with false.
    + cbv zeta. rewrite Array_sort_In, years_loop_In.
      split; [intros [[] | H]; exact H | now right].
    + unfold Js.Array_length, Js.truthy. rewrite negb_involutive.
      symmetry. apply Z.eqb_neq. simpl List.length. lia.
Qed.

(** ** The two classifiers *)

Lemma le_to_Number (v : Js.value) (y : Z) :
  Js.le v (Js.Number y) =
  match Js.ToNumber v with
  | Some b => b <=? y
  | None => false
  end.
Proof. destruct v; reflexivity. Qed.

Lemma isActive_between (lo hi : Js.value) (y1 y2 y3 : Z) :
  Js.le lo (Js.Number y1) && Js.le (Js.Number y1) hi = true ->
  Js.le lo (Js.Number y3) && Js.le (Js.Number y3) hi = true ->
  y1 <= y2 <= y3 ->
  Js.le lo (Js.Number y2) && Js.le (Js.Number y2) hi = true.
Proof.
  rewrite !le_to_Number, !le_Number, !andb_true_iff.
  destruct (Js.ToNumber lo), (Js.ToNumber hi);
    rewrite ?Z.leb_le; intuition (try discriminate; lia).
Qed.

(** X3: on a station whose [begin_year] and [end_year] are each a number or
    absent, the classifier of [src/App.jsx] and the one of the
    single-search component give the same answer for every year value. *)
Theorem isActive_components_agree (st : Station) (selected : Js.value) :
  year_field (begin_year st) = true -> year_field (end_year st) = true ->
  Part000.isActive st selected = App.isActive st selected.
Proof.
  unfold Part000.isActive, App.isActive.
  destruct (begin_year st); try discriminate;
    destruct (end_year st); try discriminate; reflexivity.
Qed.

Lemma isActive_components_agree_witness :
  Part000.isActive AAA (Js.Str "1995") = App.isActive AAA (Js.Str "1995").
Proof.
  apply (isActive_components_agree AAA (Js.Str "1995")); reflexivity.
Defined.

(** X4: the years in which a station is active are contiguous: a station
    active in two years is active in every year between them, whatever its
    bounds hold.  Both components. *)
Theorem isActive_contiguous (st : Station) (y1 y2 y3 : Z) :
  y1 <= y2 <= y3 ->
  (App.isActive st (Js.Number y1) = true ->
   App.isActive st (Js.Number y3) = true ->
   App.isActive st (Js.Number y2) = true) /\
  (Part000.isActive st (Js.Number y1) = true ->
   Part000.isActive st (Js.Number y3) = true ->
   Part000.isActive st (Js.Number y2) = true).
Proof.
  intros Hy. split; intros H1 H3.
  - exact (isActive_between _ _ y1 y2 y3 H1 H3 Hy).
  - exact (isActive_between _ _ y1 y2 y3 H1 H3 Hy).
Qed.

Lemma isActive_contiguous_witness :
  App.isActive AAA (Js.Number 2000) = true /\
  Part000.isActive textual (Js.Number 2500) = true.
Proof.
  destruct (isActive_contiguous AAA 1990 2000 2005 ltac:(lia)) as [HA _].
  destruct (isActive_contiguous textual 2000 2500 9999 ltac:(lia)) as [_ HP].
  split; [apply HA | apply HP]; reflexivity.
Defined.

(** ** Counts and series *)

Lemma Array_length_nonneg {A} (xs : list A) : 0 <= Js.Array_length xs.
Proof. unfold Js.Array_length. lia. Qed.

Lemma counts_shape (isA : Station -> Js.value -> bool)
  (filtered : list Station) (selected : Js.value) (c : Counts) :
  c = (if negb (Js.truthy (Js.Number (Js.Array_length filtered)))
          || negb (Js.truthy selected)
       then mkCounts 0 0 (Js.Array_length filtered)
       else
         let a := fold_left (fun a s => if isA s selected then a + 1 else a)
                            filtered 0 in
         mkCounts a (Js.Array_length filtered - a)
                  (Js.Array_length filtered)) ->
  0 <= active c <= total c /\ 0 <= inactive c <= total c /\
  total c = Js.Array_length filtered.
Proof.
  intros ->. pose proof (Array_length_nonneg filtered).
  destruct (negb (Js.truthy (Js.Number (Js.Array_length filtered)))
            || negb (Js.truthy selected)).
  - cbn [active inactive total]. lia.
  - cbv zeta. cbn [active inactive total]. rewrite fold_count.
    pose proof (count_bounds (fun s => isA s selected) filtered). lia.
Qed.

(** X5: the KPI counts stay inside the filtered collection: [total] is the
    number of filtered stations and [active] and [inactive] both lie
    between 0 and [total], for every collection and every selected year,
    in both components. *)
Theorem counts_within_total (filtered : list Station) (selected : Js.value) :
  (0 <= active (App.counts filtered selected)
        <= total (App.counts filtered selected) /\
   0 <= inactive (App.counts filtered selected)
        <= total (App.counts filtered selected) /\
   total (App.counts filtered selected) = Js.Array_length filtered) /\
  (0 <= active (Part000.counts filtered selected)
        <= total (Part000.counts filtered selected) /\
   0 <= inactive (Part000.counts filtered selected)
        <= total (Part000.counts filtered selected) /\
   total (Part000.counts filtered selected) = Js.Array_length filtered).
Proof.
  split.
  - exact (counts_shape App.isActive filtered selected _ eq_refl).
  - exact (counts_shape Part000.isActive filtered selected _ eq_refl).
Qed.

(** X6: the KPI counts and the chart agree.  For a non-empty collection and
    a year between 1900 and the end year, the point of the series at that
    year carries exactly the [active], [inactive] and [total] that [counts]
    gives for the whole collection and that year, although the series
    counts through [activeCountForYear] and [counts] through [isActive]. *)
Theorem counts_match_series (stations : list Station) (y e utc : Z) :
  stations <> [] -> 1900 <= y <= e ->
  In (mkEntry y (active (App.counts stations (Js.Number y)))
                (inactive (App.counts stations (Js.Number y)))
                (total (App.counts stations (Js.Number y))))
     (App.stationActivitySeries stations (Js.Number e) utc).
Proof.
  intros Hne Hy.
  destruct (counts_open stations (Js.Number y) y eq_refl ltac:(lia) Hne)
    as [-> _].
  cbn [active inactive total].
  destruct stations as [|s l]; [contradiction|].
  rewrite stationActivitySeries_cons. apply in_map_iff.
  exists y. split.
  - unfold entry_at. cbv zeta. now rewrite activeCountForYear_count.
  - apply years_from_In. unfold App.years_left.
    cbn [Js.coalesce Js.ToNumber]. lia.
Qed.

Lemma counts_match_series_witness :
  In (mkEntry 1995 (active (App.counts [AAA; X01] (Js.Number 1995)))
                   (inactive (App.counts [AAA; X01] (Js.Number 1995)))
                   (total (App.counts [AAA; X01] (Js.Number 1995))))
     (App.stationActivitySeries [AAA; X01] (Js.Number 2000) 2026).
Proof.
  apply (counts_match_series [AAA; X01] 1995 2000 2026);
    [discriminate | lia].
Defined.

(** X7: the clock enters the series only through a missing
    [default_year]: when [default_year] is [undefined] or [null] the series
    ends at the current UTC year, and for any other [default_year] (the
    number 0 included) the series does not depend on the clock. *)
Theorem series_end_year (stations : list Station) (default_year : Js.value)
  (utc utc' : Z) :
  (absent default_year = true ->
   App.stationActivitySeries stations default_year utc
   = App.stationActivitySeries stations (Js.Number utc) utc) /\
  (absent default_year = false ->
   App.stationActivitySeries stations default_year utc
   = App.stationActivitySeries stations default_year utc').
Proof.
  split; intros H; destruct default_year; try discriminate; reflexivity.
Qed.

Lemma series_end_year_witness :
  App.stationActivitySeries [AAA] Js.Null 1902
  = App.stationActivitySeries [AAA] (Js.Number 1902) 1902 /\
  App.stationActivitySeries [AAA] (Js.Number 0) 1902
  = App.stationActivitySeries [AAA] (Js.Number 0) 2026.
Proof.
  destruct (series_end_year [AAA] Js.Null 1902 1902) as [H1 _].
  destruct (series_end_year [AAA] (Js.Number 0) 1902 2026) as [_ H2].
  split; [apply H1 | apply H2]; reflexivity.
Defined.



(** ** More on the collection filter *)

Lemma string_app_assoc (a b c : string) :
  ((a ++ b) ++ c = a ++ b ++ c)%string.
Proof. induction a as [|x a IH]; simpl; [reflexivity | now rewrite IH]. Qed.

Lemma substring_trans (a b c : string) :
  substring a b -> substring b c -> substring a c.
Proof.
  intros (u & v & ->) (x & z & ->).
  exists (x ++ u)%string, (v ++ z)%string.
  now rewrite !string_app_assoc.
Qed.

Lemma includes_narrow (field qq1 qq2 : string) :
  substring qq1 qq2 ->
  Js.includes field qq2 = true -> Js.includes field qq1 = true.
Proof.
  rewrite !includes_substring. intros H12 H2.
  exact (substring_trans _ _ _ H12 H2).
Qed.

Lemma matches_empty (searchBy : string) (s : Station) :
  matches searchBy EmptyString s = true.
Proof.
  unfold matches, matches_any.
  repeat match goal with |- context [if ?c then _ else _] => destruct c end;
    rewrite ?includes_empty; reflexivity.
Qed.

Lemma matches_all_fields (searchBy qq : string) (s : Station) :
  all_fields searchBy = true -> matches searchBy qq s = matches_any qq s.
Proof.
  unfold all_fields, matches. rewrite !andb_true_iff, !negb_true_iff.
  intros [[-> ->] ->]. reflexivity.
Qed.

Lemma matches_widen (searchBy qq : string) (s : Station) :
  matches searchBy qq s = true -> matches_any qq s = true.
Proof.
  unfold matches, matches_any.
  repeat match goal with |- context [if ?c then _ else _] => destruct c end;
    intros H; rewrite ?H, ?orb_true_r; auto.
Qed.

Lemma matches_narrow (searchBy qq1 qq2 : string) (s : Station) :
  substring qq1 qq2 ->
  matches searchBy qq2 s = true -> matches searchBy qq1 s = true.
Proof.
  intros H. unfold matches, matches_any.
  repeat match goal with |- context [if ?c then _ else _] => destruct c end;
    try apply (includes_narrow _ _ _ H).
  rewrite !orb_true_iff.
  intros [[H2 | H2] | H2]; apply (includes_narrow _ _ _ H) in H2; auto.
Qed.

Lemma App_filtered_text (stations : list Station) (q searchBy : string) :
  forallb text_fields stations = true ->
  App.filtered stations q searchBy
  = Js.Normal (List.filter (matches searchBy (fold_query q)) stations).
Proof.
  intros Hshape. rewrite forallb_forall in Hshape.
  unfold App.filtered. fold (fold_query q).
  destruct (Js.truthy (Js.Str (fold_query q))) eqn:Hq; simpl.
  - apply Array_filter_pure. intros s Hs. now apply App_callback_text, Hshape.
  - apply truthy_Str_empty in Hq. rewrite Hq.
    rewrite filter_all; [reflexivity|]. intros; apply matches_empty.
Qed.

Lemma Part000_callback_text (qq : string) (s : Station) :
  text_fields s = true ->
  Part000.filtered_callback qq s
  = Js.Normal (negb (Js.truthy (Js.Str qq)) || matches_any qq s).
Proof.
  intros H. apply text_fields_inv in H. destruct H as (H1 & H2 & H3).
  unfold Part000.filtered_callback, matches_any.
  destruct (negb (Js.truthy (Js.Str qq))); [reflexivity|].
  rewrite !call_toLowerCase_text by assumption. cbn [Js.bind].
  destruct (Js.includes (folded (station_id s)) qq); [reflexivity|].
  cbn [Js.bind].
  destruct (Js.includes (folded (name s)) qq); reflexivity.
Qed.

Lemma Part000_filtered_text (stations : list Station) (q : string) :
  forallb text_fields stations = true ->
  Part000.filtered stations q
  = Js.Normal (List.filter (matches_any (fold_query q)) stations).
Proof.
  intros Hshape. rewrite forallb_forall in Hshape.
  unfold Part000.filtered. fold (fold_query q).
  rewrite (Array_filter_pure _
             (fun s => negb (Js.truthy (Js.Str (fold_query q)))
                       || matches_any (fold_query q) s)).
  - f_equal. apply filter_ext. intros s.
    destruct (Js.truthy (Js.Str (fold_query q))) eqn:Hq; [reflexivity|].
    apply truthy_Str_empty in Hq. rewrite Hq. simpl.
    symmetry. apply (matches_empty "all").
  - intros s Hs. now apply Part000_callback_text, Hshape.
Qed.

Lemma matches_any_substring (qq : string) (s : Station) :
  matches_any qq s = true <->
  substring qq (folded (station_id s)) \/ substring qq (folded (name s))
  \/ substring qq (folded (country s)).
Proof.
  unfold matches_any. rewrite !orb_true_iff, !includes_substring. tauto.
Qed.

(** X9: when [searchBy] is "all", or any value other than "station", "name"
    and "country", a search over stations with text fields keeps, in their
    order, exactly the stations whose folded identifier, name or country
    contains the folded query; the single-search component keeps the same
    stations. *)
Theorem filtered_all_fields (stations : list Station) (q searchBy : string) :
  forallb text_fields stations = true -> all_fields searchBy = true ->
  exists r,
    App.filtered stations q searchBy = Js.Normal r /\
    Part000.filtered stations q = Js.Normal r /\
    r = List.filter (matches_any (fold_query q)) stations /\
    forall s, In s r <->
      In s stations /\
      (substring (fold_query q) (folded (station_id s)) \/
       substring (fold_query q) (folded (name s)) \/
       substring (fold_query q) (folded (country s))).
Proof.
  intros Hshape Hall.
  exists (List.filter (matches_any (fold_query q)) stations).
  split; [|split; [|split]].
  - rewrite App_filtered_text by assumption. f_equal.
    apply filter_ext. intros s. now apply matches_all_fields.
  - now apply Part000_filtered_text.
  - reflexivity.
  - intros s. rewrite filter_In, matches_any_substring. reflexivity.
Qed.

Lemma filtered_all_fields_witness :
  exists r,
    App.filtered [X01; AAA] " ACC " "anything" = Js.Normal r /\
    Part000.filtered [X01; AAA] " ACC " = Js.Normal r /\
    r = List.filter (matches_any (fold_query " ACC ")) [X01; AAA] /\
    forall s, In s r <->
      In s [X01; AAA] /\
      (substring (fold_query " ACC ") (folded (station_id s)) \/
       substring (fold_query " ACC ") (folded (name s)) \/
       substring (fold_query " ACC ") (folded (country s))).
Proof.
  apply (filtered_all_fields [X01; AAA] " ACC " "anything"); reflexivity.
Defined.

Lemma Array_filter_congr {A} (p p' : A -> Js.completion bool) (xs : list A) :
  (forall x keep, In x xs -> p x = Js.Normal keep -> p' x = Js.Normal keep) ->
  forall r, Js.Array_filter p xs = Js.Normal r ->
            Js.Array_filter p' xs = Js.Normal r.
Proof.
  induction xs as [|x xs IH]; simpl; intros H r Hr; [assumption|].
  destruct (p x) as [keep|] eqn:Hx; simpl in Hr; [|discriminate].
  destruct (Js.Array_filter p xs) as [rest|] eqn:Hrest; simpl in Hr;
    [|discriminate].
  rewrite (H x keep (or_introl eq_refl) Hx). simpl.
  rewrite (IH (fun y k Hy => H y k (or_intror Hy)) rest eq_refl). exact Hr.
Qed.

Lemma App_callback_Part000 (searchBy qq : string) (s : Station) (keep : bool) :
  all_fields searchBy = true -> Js.truthy (Js.Str qq) = true ->
  App.filtered_callback searchBy qq s = Js.Normal keep ->
  Part000.filtered_callback qq s = Js.Normal keep.
Proof.
  unfold all_fields. rewrite !andb_true_iff, !negb_true_iff.
  intros [[H1 H2] H3] Hq.
  unfold App.filtered_callback, Part000.filtered_callback.
  rewrite H1, H2, H3, Hq. cbn [negb].
  destruct (Js.call_toLowerCase (Js.or (station_id s) (Js.Str "")))
    as [a|]; cbn [Js.bind]; [|discriminate].
  destruct (Js.call_toLowerCase (Js.or (name s) (Js.Str "")))
    as [b|]; cbn [Js.bind]; [|discriminate].
  destruct (Js.call_toLowerCase (Js.or (country s) (Js.Str "")))
    as [c|]; cbn [Js.bind]; [|discriminate].
  intros H. inversion H.
  destruct (Js.includes a qq), (Js.includes b qq); reflexivity.
Qed.

(** X10: whenever the all-fields search of [src/App.jsx] returns a result,
    the single-search component returns that same result for the same
    collection and query, whatever the stations hold. *)
Theorem filtered_components_agree (stations r : list Station)
  (q searchBy : string) :
  all_fields searchBy = true ->
  App.filtered stations q searchBy = Js.Normal r ->
  Part000.filtered stations q = Js.Normal r.
Proof.
  intros Hall. unfold App.filtered, Part000.filtered. cbv zeta.
  destruct (Js.truthy (Js.Str (Js.toLowerCase (Js.trim q)))) eqn:Hq;
    cbn [negb].
  - apply Array_filter_congr. intros s keep _.
    now apply App_callback_Part000.
  - intros H. inversion H; subst r.
    rewrite (Array_filter_pure _ (fun _ => true)).
    + now rewrite filter_all.
    + intros s _. unfold Part000.filtered_callback. now rewrite Hq.
Qed.

Lemma filtered_components_agree_witness :
  Part000.filtered [X01; AAA] "aa" = Js.Normal [AAA].
Proof.
  apply (filtered_components_agree [X01; AAA] [AAA] "aa" "all");
    reflexivity.
Defined.

Lemma subsequence_refl {A} (l : list A) : subsequence l l.
Proof. induction l; constructor; assumption. Qed.

Lemma subsequence_length {A} (sub l : list A) :
  subsequence sub l -> (List.length sub <= List.length l)%nat.
Proof. induction 1; simpl; lia. Qed.

Lemma Array_filter_subsequence {A} (p : A -> Js.completion bool)
  (xs : list A) :
  forall r, Js.Array_filter p xs = Js.Normal r -> subsequence r xs.
Proof.
  induction xs as [|x xs IH]; simpl; intros r Hr.
  - inversion Hr. constructor.
  - destruct (p x) as [keep|]; simpl in Hr; [|discriminate].
    destruct (Js.Array_filter p xs) as [rest|]; simpl in Hr; [|discriminate].
    inversion Hr. destruct keep; constructor; now apply IH.
Qed.

(** X11: the filter only leaves stations out.  Whatever the stations hold,
    a result it returns is the collection with some stations removed: no
    station is added, repeated or moved, and the result is no longer than
    the collection.  Both components. *)
Theorem filtered_subsequence (stations r : list Station)
  (q searchBy : string) :
  (App.filtered stations q searchBy = Js.Normal r ->
   subsequence r stations /\
   Js.Array_length r <= Js.Array_length stations) /\
  (Part000.filtered stations q = Js.Normal r ->
   subsequence r stations /\
   Js.Array_length r <= Js.Array_length stations).
Proof.
  assert (forall l : list Station, subsequence l stations ->
            subsequence l stations /\
            Js.Array_length l <= Js.Array_length stations) as Hlen.
  { intros l Hl. split; [assumption|].
    apply subsequence_length in Hl. unfold Js.Array_length. lia. }
  split; intros H; apply Hlen.
  - unfold App.filtered in H.
    destruct (negb (Js.truthy (Js.Str (Js.toLowerCase (Js.trim q))))).
    + inversion H. apply subsequence_refl.
    + now apply Array_filter_subsequence in H.
  - now apply Array_filter_subsequence in H.
Qed.

Lemma filtered_subsequence_witness :
  subsequence [AAA] [X01; AAA] /\
  Js.Array_length [AAA] <= Js.Array_length [X01; AAA].
Proof.
  destruct (filtered_subsequence [X01; AAA] [AAA] "aa" "station") as [H _].
  apply H. reflexivity.
Defined.

(** X12: narrowing the scope never finds more.  Over stations with text
    fields, every station found under any [searchBy] is also found, for the
    same query, under an all-fields [searchBy]. *)
Theorem filtered_scope_narrows (stations r r_all : list Station)
  (q searchBy searchAll : string) :
  forallb text_fields stations = true -> all_fields searchAll = true ->
  App.filtered stations q searchBy = Js.Normal r ->
  App.filtered stations q searchAll = Js.Normal r_all ->
  incl r r_all.
Proof.
  intros Hshape Hall. rewrite !App_filtered_text by assumption.
  intros Hr Hall'. inversion Hr; inversion Hall'; subst.
  intros s. rewrite !filter_In. intros [Hin Hm]. split; [assumption|].
  rewrite matches_all_fields by assumption. now apply matches_widen in Hm.
Qed.

Lemma filtered_scope_narrows_witness : incl [X01] [X01; AAA].
Proof.
  apply (filtered_scope_narrows [X01; AAA] [X01] [X01; AAA] "a" "name" "all");
    reflexivity.
Defined.

(** X14: typing more never finds more.  Over stations with text fields, when
    the folded first query occurs in the folded second query, every station
    found for the second query is found for the first one, under the same
    [searchBy]. *)
Theorem filtered_longer_query (stations r1 r2 : list Station)
  (q1 q2 searchBy : string) :
  forallb text_fields stations = true ->
  substring (fold_query q1) (fold_query q2) ->
  App.filtered stations q1 searchBy = Js.Normal r1 ->
  App.filtered stations q2 searchBy = Js.Normal r2 ->
  incl r2 r1.
Proof.
  intros Hshape Hsub. rewrite !App_filtered_text by assumption.
  intros H1 H2. inversion H1; inversion H2; subst.
  intros s. rewrite !filter_In. intros [Hin Hm]. split; [assumption|].
  exact (matches_narrow _ _ _ _ Hsub Hm).
Qed.

Lemma filtered_longer_query_witness : incl [X01] [X01; AAA].
Proof.
  apply (filtered_longer_query [X01; AAA] [X01; AAA] [X01] "a" "Acc" "all").
  - reflexivity.
  - exists EmptyString, "cc"%string. reflexivity.
  - reflexivity.
  - reflexivity.
Defined.

Lemma call_toLowerCase_not_text (v : Js.value) :
  text_field v = false ->
  Js.call_toLowerCase (Js.or v (Js.Str "")) = Js.Throw Js.TypeError.
Proof.
  unfold Js.or. destruct v as [| |b|n|s]; simpl; try discriminate.
  - destruct b; [reflexivity | discriminate].
  - destruct (n =? 0); [discriminate | reflexivity].
Qed.

Lemma App_callback_not_text (searchBy qq : string) (s : Station) :
  text_fields s = false ->
  App.filtered_callback searchBy qq s = Js.Throw Js.TypeError.
Proof.
  unfold text_fields, App.filtered_callback. intros H.
  destruct (text_field (station_id s)) eqn:H1;
    [rewrite call_toLowerCase_text by assumption
    | now rewrite call_toLowerCase_not_text].
  cbn [Js.bind].
  destruct (text_field (name s)) eqn:H2;
    [rewrite call_toLowerCase_text by assumption
    | now rewrite call_toLowerCase_not_text].
  cbn [Js.bind].
  destruct (text_field (country s)) eqn:H3; [discriminate|].
  now rewrite call_toLowerCase_not_text.
Qed.

Lemma Array_filter_throws {A} (p : A -> Js.completion bool) (xs : list A)
  (x : A) :
  In x xs -> p x = Js.Throw Js.TypeError ->
  Js.Array_filter p xs = Js.Throw Js.TypeError.
Proof.
  induction xs as [|a xs IH]; simpl; intros Hin Hx; [contradiction|].
  destruct Hin as [-> | Hin].
  - now rewrite Hx.
  - destruct (p a) as [keep | []]; cbn [Js.bind]; [|reflexivity].
    now rewrite IH.
Qed.

(** X15: one station with a field that is neither text nor empty breaks
    the search of [src/App.jsx].  If the collection holds a station whose
    identifier, name or country is a non-zero number or [true], every
    query that is not blank raises a [TypeError], whatever the scope and
    whatever the query is. *)
Theorem filtered_raises (stations : list Station) (s : Station)
  (q searchBy : string) :
  In s stations -> text_fields s = false -> fold_query q <> EmptyString ->
  App.filtered stations q searchBy = Js.Throw Js.TypeError.
Proof.
  intros Hin Hs Hq. unfold App.filtered. fold (fold_query q).
  destruct (Js.truthy (Js.Str (fold_query q))) eqn:E; cbn [negb].
  - apply (Array_filter_throws _ _ s Hin).
    now apply App_callback_not_text.
  - apply truthy_Str_empty in E. contradiction.
Qed.

Lemma filtered_raises_witness :
  App.filtered [X01; mkStation (Js.Number 7) Js.Undefined Js.Undefined
                               Js.Undefined Js.Undefined] "z" "country"
  = Js.Throw Js.TypeError.
Proof.
  apply (filtered_raises _ (mkStation (Js.Number 7) Js.Undefined Js.Undefined
                                      Js.Undefined Js.Undefined)).
  - right. left. reflexivity.
  - reflexivity.
  - discriminate.
Defined.

(** *** The folded query *)

Lemma is_white_lower (c : ascii) :
  Js.is_white (Js.lower_unit c) = Js.is_white c.
Proof. destruct c as [[] [] [] [] [] [] [] []]; reflexivity. Qed.

Lemma lower_unit_twice (c : ascii) :
  Js.lower_unit (Js.lower_unit c) = Js.lower_unit c.
Proof. destruct c as [[] [] [] [] [] [] [] []]; reflexivity. Qed.

Lemma toLowerCase_twice (s : string) :
  Js.toLowerCase (Js.toLowerCase s) = Js.toLowerCase s.
Proof.
  induction s as [|c s IH]; simpl; [reflexivity|].
  now rewrite lower_unit_twice, IH.
Qed.

Lemma trimEnd_unfold (c : ascii) (s : string) :
  Js.trimEnd (String c s) =
  match Js.trimEnd s with
  | EmptyString =>
      if Js.is_white c then EmptyString else String c EmptyString
  | t => String c t
  end.
Proof. reflexivity. Qed.

Lemma trimEnd_head (c : ascii) (s : string) :
  Js.is_white c = false -> Js.trimEnd (String c s) = String c (Js.trimEnd s).
Proof.
  intros H. rewrite trimEnd_unfold, H. now destruct (Js.trimEnd s).
Qed.

Lemma trimEnd_twice (s : string) : Js.trimEnd (Js.trimEnd s) = Js.trimEnd s.
Proof.
  induction s as [|c s IH]; [reflexivity|].
  rewrite trimEnd_unfold.
  destruct (Js.trimEnd s) as [|a t] eqn:E.
  - destruct (Js.is_white c) eqn:Hw; [reflexivity|].
    rewrite trimEnd_unfold. simpl Js.trimEnd. now rewrite Hw.
  - rewrite trimEnd_unfold, IH. reflexivity.
Qed.

Lemma trimStart_head (s : string) :
  Js.trimStart s = EmptyString \/
  exists c t, Js.trimStart s = String c t /\ Js.is_white c = false.
Proof.
  induction s as [|c s IH]; simpl; [now left|].
  destruct (Js.is_white c) eqn:Hw; [assumption|].
  right. now exists c, s.
Qed.

Lemma trim_twice (s : string) : Js.trim (Js.trim s) = Js.trim s.
Proof.
  unfold Js.trim.
  destruct (trimStart_head s) as [-> | (c & t & -> & Hw)]; [reflexivity|].
  rewrite (trimEnd_head c t Hw). simpl Js.trimStart. rewrite Hw.
  rewrite (trimEnd_head c _ Hw). now rewrite trimEnd_twice.
Qed.

Lemma trimStart_lower (s : string) :
  Js.trimStart (Js.toLowerCase s) = Js.toLowerCase (Js.trimStart s).
Proof.
  induction s as [|c s IH]; simpl; [reflexivity|].
  rewrite is_white_lower. now destruct (Js.is_white c).
Qed.

Lemma trimEnd_lower (s : string) :
  Js.trimEnd (Js.toLowerCase s) = Js.toLowerCase (Js.trimEnd s).
Proof.
  induction s as [|c s IH]; [reflexivity|].
  simpl Js.toLowerCase at 1. rewrite !trimEnd_unfold, IH, is_white_lower.
  destruct (Js.trimEnd s); simpl; [|reflexivity].
  now destruct (Js.is_white c).
Qed.

Lemma fold_query_lower (q : string) :
  fold_query (Js.toLowerCase q) = fold_query q.
Proof.
  unfold fold_query, Js.trim.
  now rewrite trimStart_lower, trimEnd_lower, toLowerCase_twice.
Qed.

Lemma fold_query_trim (q : string) : fold_query (Js.trim q) = fold_query q.
Proof. unfold fold_query. now rewrite trim_twice. Qed.

(** X13: the search reads the query through its folded form only: a query
    already lower-cased, or already stripped of its surrounding white
    space, gives the same outcome as the query itself, for every
    collection and scope and in both components. *)
Theorem filtered_query_folded (stations : list Station) (q searchBy : string) :
  App.filtered stations (Js.toLowerCase q) searchBy
  = App.filtered stations q searchBy /\
  App.filtered stations (Js.trim q) searchBy
  = App.filtered stations q searchBy /\
  Part000.filtered stations (Js.toLowerCase q) = Part000.filtered stations q /\
  Part000.filtered stations (Js.trim q) = Part000.filtered stations q.
Proof.
  unfold App.filtered, Part000.filtered. cbv zeta.
  fold (fold_query q) (fold_query (Js.toLowerCase q)) (fold_query (Js.trim q)).
  now rewrite fold_query_lower, fold_query_trim.
Qed.

(** ** The table *)

Lemma Array_slice_from_0 {A} (n : nat) (xs : list A) :
  Js.Array_slice 0 n xs = firstn n xs.
Proof. reflexivity. Qed.

(** X16: the table never shows more than 200 rows: it has one row for each
    of the first 200 filtered stations, in their order, keyed by the
    station identifier; so it has [min(200, n)] rows for [n] filtered
    stations.  Both components. *)
Theorem table_rows_cap (filtered : list Station) (selected : Js.value) :
  (map row_key (App.table_rows filtered selected)
   = map station_id (firstn 200 filtered) /\
   List.length (App.table_rows filtered selected)
   = Nat.min 200 (List.length filtered)) /\
  (map row_key (Part000.table_rows filtered selected)
   = map station_id (firstn 200 filtered) /\
   List.length (Part000.table_rows filtered selected)
   = Nat.min 200 (List.length filtered)).
Proof.
  unfold App.table_rows, Part000.table_rows.
  rewrite Array_slice_from_0, !map_map, !length_map, length_firstn.
  repeat split.
Qed.

Section TableAndCounts.

Variable isA : Station -> Js.value -> bool.
Variable row : Station -> Row.
Variable selected : Js.value.

Hypothesis row_status :
  forall s, cell_status (row s) =
            if (if Js.truthy selected then isA s selected else false)
            then "Active"%string else "Inactive"%string.

Lemma count_status_Active (l : list Station) :
  count_status "Active" (map row l)
  = count (fun s => Js.truthy selected && isA s selected) l.
Proof.
  unfold count_status, count. f_equal.
  induction l as [|s l IH]; simpl; [reflexivity|].
  rewrite row_status.
  destruct (Js.truthy selected); simpl; [|exact IH].
  destruct (isA s selected); simpl; now rewrite IH.
Qed.

Lemma count_status_Inactive (l : list Station) :
  count_status "Inactive" (map row l)
  = Js.Array_length l
    - count (fun s => Js.truthy selected && isA s selected) l.
Proof.
  unfold count_status, count, Js.Array_length.
  assert (List.length
            (List.filter (fun r => (cell_status r =? "Inactive")%string)
                         (map row l))
          + List.length
              (List.filter (fun s => Js.truthy selected && isA s selected) l)
          = List.length l)%nat as H; [|lia].
  induction l as [|s l IH]; [reflexivity|].
  cbn [map List.filter]. rewrite row_status.
  destruct (Js.truthy selected); cbn [andb];
    [destruct (isA s selected)|]; simpl in IH |- *; lia.
Qed.

Lemma count_never (l : list Station) :
  count (fun _ => false) l = 0.
Proof. unfold count. induction l; simpl; auto. Qed.

Lemma table_matches_counts (l : list Station) (c : Counts) :
  c = (if negb (Js.truthy (Js.Number (Js.Array_length l)))
          || negb (Js.truthy selected)
       then mkCounts 0 0 (Js.Array_length l)
       else
         let a := fold_left (fun a s => if isA s selected then a + 1 else a)
                            l 0 in
         mkCounts a (Js.Array_length l - a) (Js.Array_length l)) ->
  count_status "Active" (map row l) = active c /\
  (Js.truthy selected = true ->
   count_status "Inactive" (map row l) = inactive c) /\
  (Js.truthy selected = false ->
   count_status "Inactive" (map row l) = Js.Array_length l /\ inactive c = 0).
Proof.
  intros ->. rewrite count_status_Active, count_status_Inactive.
  destruct (Js.truthy selected) eqn:Hy; cbn [negb andb orb].
  - rewrite orb_false_r.
    destruct (Js.truthy (Js.Number (Js.Array_length l))) eqn:Hl;
      cbn [negb]; cbv zeta; cbn [active inactive].
    + rewrite fold_count. repeat split; try discriminate; lia.
    + apply Array_length_falsy in Hl. subst l.
      repeat split; try discriminate; reflexivity.
  - rewrite orb_true_r. cbn [active inactive].
    rewrite count_never. repeat split; try discriminate; lia.
Qed.

End TableAndCounts.

(** X17: the table and the KPI counts agree while the table is not cut.
    With at most 200 filtered stations, the number of rows marked "Active"
    is the [active] count; with a selected year that is truthy the number
    of rows marked "Inactive" is the [inactive] count; with no selected
    year (or 0) every row is marked "Inactive" while the [inactive] count
    is 0.  Both components. *)
Theorem table_agrees_with_counts (filtered : list Station)
  (selected : Js.value) :
  Js.Array_length filtered <= 200 ->
  (count_status "Active" (App.table_rows filtered selected)
   = active (App.counts filtered selected) /\
   (Js.truthy selected = true ->
    count_status "Inactive" (App.table_rows filtered selected)
    = inactive (App.counts filtered selected)) /\
   (Js.truthy selected = false ->
    count_status "Inactive" (App.table_rows filtered selected)
    = Js.Array_length filtered /\
    inactive (App.counts filtered selected) = 0)) /\
  (count_status "Active" (Part000.table_rows filtered selected)
   = active (Part000.counts filtered selected) /\
   (Js.truthy selected = true ->
    count_status "Inactive" (Part000.table_rows filtered selected)
    = inactive (Part000.counts filtered selected)) /\
   (Js.truthy selected = false ->
    count_status "Inactive" (Part000.table_rows filtered selected)
    = Js.Array_length filtered /\
    inactive (Part000.counts filtered selected) = 0)).
Proof.
  intros Hlen. unfold App.table_rows, Part000.table_rows.
  rewrite Array_slice_from_0, firstn_all2
    by (unfold Js.Array_length in Hlen; lia).
  split.
  - apply (table_matches_counts App.isActive); reflexivity.
  - apply (table_matches_counts Part000.isActive); reflexivity.
Qed.

Lemma table_agrees_with_counts_witness :
  count_status "Active" (App.table_rows [AAA; X01; swapped] (Js.Number 1995))
  = active (App.counts [AAA; X01; swapped] (Js.Number 1995)) /\
  count_status "Inactive" (App.table_rows [AAA; X01; swapped] (Js.Number 1995))
  = inactive (App.counts [AAA; X01; swapped] (Js.Number 1995)) /\
  count_status "Inactive" (Part000.table_rows [AAA; X01; swapped] Js.Null)
  = Js.Array_length [AAA; X01; swapped].
Proof.
  destruct (table_agrees_with_counts [AAA; X01; swapped] (Js.Number 1995))
    as [(H1 & H2 & _) _]; [vm_compute; discriminate|].
  destruct (table_agrees_with_counts [AAA; X01; swapped] Js.Null)
    as [_ (_ & _ & H3)]; [vm_compute; discriminate|].
  split; [exact H1 | split; [apply H2; reflexivity | apply H3; reflexivity]].
Defined.

(** ** Before the feed and after a failed fetch *)

(** X18: while [data] is still [null], and when it is an object without
    [stations] such as the one a failed fetch stores, the component works
    on the empty collection: no selectable year, an empty search result for
    every query and scope, counts of 0, no series and no table row. *)
Theorem nothing_without_stations (data : option Feed) (selected : Js.value)
  (q searchBy : string) (utc : Z) :
  (data = None \/ exists d, data = Some d /\ feed_stations d = None) ->
  App.stations data = [] /\
  App.years (App.stations data) = [] /\
  App.filtered (App.stations data) q searchBy = Js.Normal [] /\
  (r <- App.filtered (App.stations data) q searchBy ;;
   Js.Normal (App.counts r selected, App.table_rows r selected))
  = Js.Normal (mkCounts 0 0 0, []) /\
  (forall default_year,
     App.stationActivitySeries (App.stations data) default_year utc = []) /\
  Part000.stations data = [] /\
  Part000.filtered (Part000.stations data) q = Js.Normal [].
Proof.
  intros H.
  assert (App.stations data = []) as ->.
  { destruct H as [-> | (d & -> & Hd)]; [reflexivity|].
    unfold App.stations. now rewrite Hd. }
  assert (Part000.stations data = []) as ->.
  { destruct H as [-> | (d & -> & Hd)]; [reflexivity|].
    unfold Part000.stations. now rewrite Hd. }
  assert (App.filtered [] q searchBy = Js.Normal []) as Hf.
  { unfold App.filtered.
    now destruct (negb (Js.truthy (Js.Str (Js.toLowerCase (Js.trim q))))). }
  rewrite Hf. repeat split.
Qed.

Lemma nothing_without_stations_witness :
  App.stations (Page.data (Page.on_catch "Error: HTTP 404" Page.initial)) = []
  /\
  App.filtered
    (App.stations (Page.data (Page.on_catch "Error: HTTP 404" Page.initial)))
    "x" "all"
  = Js.Normal [].
Proof.
  destruct (nothing_without_stations
              (Page.data (Page.on_catch "Error: HTTP 404" Page.initial))
              Js.Null "x" "all" 2026) as (H1 & _ & H3 & _).
  - right. eexists. split; reflexivity.
  - split; [exact H1 | exact H3].
Defined.

(** ** The component after its events *)

Lemma years_from_snoc (n : nat) :
  forall lo, years_from lo (S n) = years_from lo n ++ [lo + Z.of_nat n].
Proof.
  induction n as [|n IH]; intros lo.
  - simpl. now rewrite Z.add_0_r.
  - change (years_from lo (S (S n))) with (lo :: years_from (lo + 1) (S n)).
    change (years_from lo (S n)) with (lo :: years_from (lo + 1) n).
    rewrite IH, <- app_comm_cons. do 3 f_equal. lia.
Qed.

(** X19: what the component first shows after the feed arrives is
    consistent.  For a feed with at least one station and an integer
    [default_year] of 1900 or later, loaded into the initial state, the
    search result is the whole collection and the KPI counts are those of
    the last point of the series, which is the point of [default_year]. *)
Theorem first_display (j : Feed) (s : Station) (l : list Station)
  (d utc : Z) :
  feed_stations j = Some (s :: l) -> feed_default_year j = Js.Number d ->
  1900 <= d ->
  let st := Page.on_json j Page.initial in
  Page.filtered st = Js.Normal (s :: l) /\
  exists c earlier,
    Page.counts st = Js.Normal c /\
    Page.stationActivitySeries st utc
    = earlier ++ [mkEntry d (active c) (inactive c) (total c)].
Proof.
  intros Hs Hd Hle st.
  assert (Page.filtered st = Js.Normal (s :: l)) as Hf.
  { unfold Page.filtered, st, Page.on_json, App.stations. simpl.
    now rewrite Hs. }
  split; [exact Hf|].
  unfold Page.counts. rewrite Hf. cbn [Js.bind].
  eexists. eexists. split; [reflexivity|].
  unfold Page.stationActivitySeries, st, Page.on_json, App.stations.
  cbn [Page.data Page.year]. rewrite Hs, Hd.
  destruct (counts_open (s :: l) (Js.Number d) d eq_refl ltac:(lia)
                        ltac:(discriminate)) as [-> _].
  cbn [active inactive total].
  rewrite stationActivitySeries_cons.
  unfold App.years_left. cbn [Js.coalesce Js.ToNumber].
  replace (Z.to_nat (d + 1 - 1900)) with (S (Z.to_nat (d - 1900))) by lia.
  rewrite years_from_snoc, map_app. cbn [map]. f_equal.
  replace (1900 + Z.of_nat (Z.to_nat (d - 1900))) with d by lia.
  unfold entry_at. cbv zeta. now rewrite activeCountForYear_count.
Qed.

Lemma first_display_witness :
  Page.filtered
    (Page.on_json (mkFeed Js.Undefined (Js.Str "2026-01-01") (Js.Number 1901)
                          (Some [AAA; X01])) Page.initial)
  = Js.Normal [AAA; X01].
Proof.
  apply (first_display
           (mkFeed Js.Undefined (Js.Str "2026-01-01") (Js.Number 1901)
                   (Some [AAA; X01])) AAA [X01] 1901 2026);
    [reflexivity | reflexivity | lia].
Defined.

Lemma on_search_keeps (st : Page.state) (ev : Page.search_event) :
  Page.data (Page.on_search st ev) = Page.data st /\
  Page.year (Page.on_search st ev) = Page.year st.
Proof. destruct ev; split; reflexivity. Qed.

Lemma search_events_keep (evs : list Page.search_event) :
  forall st,
    Page.data (fold_left Page.on_search evs st) = Page.data st /\
    Page.year (fold_left Page.on_search evs st) = Page.year st.
Proof.
  induction evs as [|ev evs IH]; intros st; simpl; [now split|].
  destruct (IH (Page.on_search st ev)) as [-> ->].
  apply on_search_keeps.
Qed.

(** X20: searching never changes the chart.  Whatever the user types,
    picks as scope or clears, in any order and from any state, the series
    and the selectable years stay what they were: both are computed from
    all the stations of the feed, not from the search result; and a search
    that is cleared last returns all the stations. *)
Theorem search_keeps_chart (st : Page.state)
  (evs : list Page.search_event) (utc : Z) :
  Page.stationActivitySeries (fold_left Page.on_search evs st) utc
  = Page.stationActivitySeries st utc /\
  Page.years (fold_left Page.on_search evs st) = Page.years st /\
  Page.filtered (fold_left Page.on_search (evs ++ [Page.Clear]) st)
  = Js.Normal (App.stations (Page.data st)).
Proof.
  unfold Page.stationActivitySeries, Page.years, Page.filtered.
  rewrite fold_left_app. cbn [fold_left Page.on_search].
  unfold Page.on_clear. cbn [Page.data Page.q Page.searchBy].
  destruct (search_events_keep evs st) as [-> _].
  repeat split.
Qed.

Lemma years_membership_witness : In 1990 (App.years [X01; AAA]).
Proof.
  apply (proj1 (years_membership [X01; AAA] 1990)).
  exists AAA. split; [right; left; reflexivity | left; reflexivity].
Defined.
